(** * Story-Book: the image -> caption -> story -> translation -> audio pipeline

    A shallow embedding of [app.py].  The application is a Streamlit script:
    every interaction re-executes [main] against the session store
    [st.session_state], which survives from one execution to the next.
    The four external services (captioning model, chat-completion API,
    translation service, speech synthesis) are taken as parameters
    ([backends]); everything the script itself decides -- the order of the
    calls, what is caught, what is stored in the session -- is modelled
    from the source. *)

From stdpp Require Import base option list strings gmap fin_maps.

Local Open Scope string_scope.

(** ** Python values kept in the session store *)

Inductive pyval : Type :=
  | PyNone
  | PyStr (s : string)
  | PyBool (b : bool).

#[global] Instance pyval_eq_dec : EqDecision pyval.
Proof. solve_decision. Defined.

(** Python truthiness, as used by [if scenario:], [if story:] and the
    display gates: [None], [False] and the empty string are falsy. *)
Definition truthy (v : pyval) : bool :=
  match v with
  | PyNone => false
  | PyStr s => negb (String.eqb s EmptyString)
  | PyBool b => b
  end.

Arguments truthy : simpl never.

(** [str(v)], as an f-string formats a value. *)
Definition py_str (v : pyval) : string :=
  match v with
  | PyNone => "None"
  | PyStr s => s
  | PyBool true => "True"
  | PyBool false => "False"
  end.

(** ** Observable effects *)

Inductive event : Type :=
  | st_error (msg : string)
  | st_warning (msg : string)
  | st_image (bytes_data : string)
  | st_markdown (html : string)
  | st_audio (path : string)
  | call_captioner (url : string)
  | call_completions (user_content : string)
  | call_translator (text dest : string)
  | call_gtts (text lang : string).

#[global] Instance event_eq_dec : EqDecision event.
Proof. solve_decision. Defined.

(** The part of the world the script reads and writes: the session store,
    the working directory, and the trace of messages shown and services
    called (oldest first). *)
Record world : Type := World {
  session_state : gmap string pyval;
  files : gmap string string;
  trace : list event
}.

(** ** A state-and-exception monad

    A Python call either returns or raises; what it did to the world
    before raising stays done. *)

Inductive outcome (A : Type) : Type :=
  | Ok (a : A)
  | Raise (e : string).
Arguments Ok {A} a.
Arguments Raise {A} e.

Definition M (A : Type) : Type := world -> outcome A * world.

Definition ret {A} (a : A) : M A := fun w => (Ok a, w).

Definition bind {A B} (c : M A) (k : A -> M B) : M B :=
  fun w =>
    match c w with
    | (Ok a, w') => k a w'
    | (Raise e, w') => (Raise e, w')
    end.

Definition raise {A} (e : string) : M A := fun w => (Raise e, w).

(** [try: body / except Exception as e: handler e] *)
Definition try_except {A} (body : M A) (handler : string -> M A) : M A :=
  fun w =>
    match body w with
    | (Ok a, w') => (Ok a, w')
    | (Raise e, w') => handler e w'
    end.

(** Lifting the result of an external call. *)
Definition lift {A} (o : outcome A) : M A := fun w => (o, w).

Declare Scope py_scope.
Delimit Scope py_scope with py.
Notation "'let*' x ':=' c 'in' k" := (bind c (fun x => k))
  (at level 10, x name, c at level 100, k at level 200) : py_scope.
Notation "c1 '>>' c2" := (bind c1 (fun _ => c2))
  (at level 100, c2 at level 200, right associativity) : py_scope.
Local Open Scope py_scope.

Definition emit (ev : event) : M unit :=
  fun w => (Ok tt, World (session_state w) (files w) (trace w ++ [ev])).

(** [st.session_state.k = v] *)
Definition session_set (k : string) (v : pyval) : M unit :=
  fun w => (Ok tt, World (<[k := v]> (session_state w)) (files w) (trace w)).

(** [st.session_state.k]: an attribute that was never set raises. *)
Definition session_get (k : string) : M pyval :=
  fun w =>
    match session_state w !! k with
    | Some v => (Ok v, w)
    | None => (Raise ("AttributeError: st.session_state has no attribute " ++ k), w)
    end.

(** [if k not in st.session_state: st.session_state.k = v] *)
Definition session_setdefault (k : string) (v : pyval) : M unit :=
  fun w =>
    match session_state w !! k with
    | Some _ => (Ok tt, w)
    | None => session_set k v w
    end.

(** [with open(path, "wb") as file: file.write(data)] *)
Definition write_file (path data : string) : M unit :=
  fun w => (Ok tt, World (session_state w) (<[path := data]> (files w)) (trace w)).

(** [os.path.exists(path)] *)
Definition path_exists (path : string) : M bool :=
  fun w => (Ok (match files w !! path with Some _ => true | None => false end), w).

(** ** External services

    Each is a function from what the script passes it to what it returns
    or raises.  [captioning_model] is given the bytes found at the path it
    is pointed at.  [gtts_save] is what [gTTS(text, lang)] followed by
    [tts.save(path)] comes to: the audio written in full, or an exception.
    [tts.save] opens the file for writing before it fetches anything, so a
    failure can leave the file behind, empty or partly written;
    [gtts_partial] is what a failing call leaves at the path: [None] when
    it raised before the file was opened (as when [gTTS(...)] itself
    refuses the text or the language), the bytes in the file otherwise. *)

(** The streamed response of the chat-completion API: a finite sequence of
    chunks, each with a [delta.content] that may be [None], which may break
    off with an exception. *)
Inductive stream : Type :=
  | stream_end
  | stream_chunk (content : option string) (rest : stream)
  | stream_raise (e : string).

Record backends : Type := Backends {
  captioning_model : option string -> outcome string;
  completions_create : string -> outcome stream;
  translator_translate : string -> string -> outcome string;
  gtts_save : string -> string -> outcome string;
  gtts_partial : string -> string -> option string
}.

(** ** Constants of the script *)

Inductive language : Type :=
  | English | Hindi | Tamil | Telugu | Malayalam
  | Kannada | Bengali | Gujarati | Marathi | Punjabi.

(** [SUPPORTED_LANGUAGES[selected_language]]; the selector only offers the
    ten keys of the dictionary. *)
Definition SUPPORTED_LANGUAGES (l : language) : string :=
  match l with
  | English => "en" | Hindi => "hi" | Tamil => "ta" | Telugu => "te"
  | Malayalam => "ml" | Kannada => "kn" | Bengali => "bn"
  | Gujarati => "gu" | Marathi => "mr" | Punjabi => "pa"
  end.

Definition uploaded_image_path : string := "uploaded_image.jpg".
Definition story_audio_path : string := "story_audio.mp3".

Definition nl : string := String (Ascii.ascii_of_nat 10) EmptyString.
Definition dquote : string := String (Ascii.ascii_of_nat 34) EmptyString.

(** The continuation lines of the triple-quoted template keep their
    indentation: 28 spaces. *)
Definition indent : string := "                            ".

(** ** Session initialisation *)

Definition initialize_session_state : M unit :=
  session_setdefault "story_english" PyNone >>
  session_setdefault "story_translated" PyNone >>
  session_setdefault "audio_file_path" PyNone >>
  session_setdefault "caption" PyNone >>
  session_setdefault "processing_complete" (PyBool false).

(** ** The four wrappers *)

Definition img2txt (env : backends) (url : string) : M (option string) :=
  try_except
    (let* _ := emit (call_captioner url) in
     let* text := (fun w => (captioning_model env (files w !! url), w)) in
     ret (Some text))
    (fun e =>
       let* _ := emit (st_error ("Error in image captioning: " ++ e)) in
       ret None).

(** [for chunk in stream: story += chunk.choices[0].delta.content];
    adding [None] to a [str] is a [TypeError]. *)
Definition concat_type_error : string :=
  "can only concatenate str (not " ++ dquote ++ "NoneType" ++ dquote ++ ") to str".

Fixpoint consume (st : stream) (story : string) : outcome string :=
  match st with
  | stream_end => Ok story
  | stream_chunk (Some content) rest => consume rest (story ++ content)
  | stream_chunk None _ => Raise concat_type_error
  | stream_raise e => Raise e
  end.

Definition story_prompt_prefix : string :=
  "Write a short story of no more than 250 words based on the following prompt: ".

(** The body of the [try] in [txt2story]. *)
Definition txt2story_body (env : backends) (prompt : string) : M string :=
  let story_prompt := story_prompt_prefix ++ prompt in
  let* _ := emit (call_completions story_prompt) in
  let* st := lift (completions_create env story_prompt) in
  lift (consume st EmptyString).

Definition txt2story (env : backends) (prompt : string) : M (option string) :=
  try_except
    (let* story := txt2story_body env prompt in ret (Some story))
    (fun e =>
       let* _ := emit (st_error ("Error in story generation: " ++ e)) in
       ret None).

Definition translate_text (env : backends) (text target_lang : string) : M string :=
  if String.eqb target_lang "en" then ret text
  else
    try_except
      (let* _ := emit (call_translator text target_lang) in
       lift (translator_translate env text target_lang))
      (fun e =>
         let* _ := emit (st_warning ("Translation failed: " ++ e ++ ". Showing original text.")) in
         ret text).

(** [tts = gTTS(text=text, lang=lang); tts.save(path)]: on success the
    audio is in the file; on failure the file holds what the library had
    put there when it raised, if it had opened it at all. *)
Definition tts_save (env : backends) (text lang path : string) : M unit :=
  fun w =>
    match gtts_save env text lang with
    | Ok audio => write_file path audio w
    | Raise e =>
        (Raise e,
         match gtts_partial env text lang with
         | Some partial => World (session_state w) (<[path := partial]> (files w)) (trace w)
         | None => w
         end)
    end.

Definition create_audio (env : backends) (text language_code : string) : M bool :=
  try_except
    (let* _ := emit (call_gtts text language_code) in
     let* _ := tts_save env text language_code story_audio_path in
     ret true)
    (fun e =>
       let* _ := emit (st_error ("Error in audio generation: " ++ e)) in
       ret false).

(** ** Preferences *)

(** What the nine select boxes return. *)
Record selections : Type := Selections {
  region : string; genre : string; setting : string;
  plot : string; tone : string; theme : string;
  conflict : string; twist : string; ending : string
}.

Definition region_options : list string :=
  ["North India"; "South India"; "East India"; "West India"; "Central India"].
Definition genre_options : list string :=
  ["Mythology"; "Historical Fiction"; "Bollywood-inspired Drama"; "Folklore"].
Definition setting_options : list string :=
  ["Ancient India"; "Modern-day City"; "Village Life"; "Freedom Struggle Era"].
Definition plot_options : list string :=
  ["Overcoming obstacles"; "Family saga"; "Love story"; "Friendship and loyalty"].
Definition tone_options : list string :=
  ["Emotional"; "Inspirational"; "Humorous"; "Mysterious"].
Definition theme_options : list string :=
  ["Karma"; "Unity in Diversity"; "Tradition vs. Modernity"; "Hope"].
Definition conflict_options : list string :=
  ["Class struggles"; "Internal moral dilemma"; "Man vs. Nature"; "Generational conflict"].
Definition twist_options : list string :=
  ["Reincarnation"; "Hidden lineage"; "Unexpected sacrifice"; "Spiritual revelation"].
Definition ending_options : list string :=
  ["Happy"; "Bittersweet"; "Open-ended"; "Tragic"].

(** A select box returns one of its options. *)
Definition offered (sel : selections) : bool :=
  bool_decide (region sel ∈ region_options) && bool_decide (genre sel ∈ genre_options)
  && bool_decide (setting sel ∈ setting_options) && bool_decide (plot sel ∈ plot_options)
  && bool_decide (tone sel ∈ tone_options) && bool_decide (theme sel ∈ theme_options)
  && bool_decide (conflict sel ∈ conflict_options) && bool_decide (twist sel ∈ twist_options)
  && bool_decide (ending sel ∈ ending_options).

(** The items of the dictionary literal, in the order the boxes are
    rendered. *)
Definition preference_items (sel : selections) : list (string * string) :=
  [("region", region sel); ("genre", genre sel); ("setting", setting sel);
   ("plot", plot sel); ("tone", tone sel); ("theme", theme sel);
   ("conflict", conflict sel); ("twist", twist sel); ("ending", ending sel)].

Definition get_user_preferences (sel : selections) : gmap string string :=
  list_to_map (preference_items sel).

(** [d[k]] *)
Definition dict_getitem (d : gmap string string) (k : string) : M string :=
  match d !! k with
  | Some v => ret v
  | None => raise ("'" ++ k ++ "'")
  end.

(** The text of the f-string of [main] around its nine fields. *)
Definition prompt_template
    (scenario genre setting region tone theme conflict twist ending : string) : string :=
  "Based on the image description: '" ++ scenario ++ "', " ++ nl
  ++ indent ++ "create a " ++ genre ++ " story set in " ++ setting ++ " " ++ nl
  ++ indent ++ "in " ++ region ++ ". The story should have a " ++ tone ++ " " ++ nl
  ++ indent ++ "tone and explore the theme of " ++ theme ++ ". The main conflict " ++ nl
  ++ indent ++ "should be " ++ conflict ++ ". The story should have a " ++ twist ++ " " ++ nl
  ++ indent ++ "and end with a " ++ ending ++ " ending.".

(** The f-string of [main]: its fields are evaluated left to right, a
    missing key raising [KeyError]. *)
Definition build_prompt (scenario : string) (preferences : gmap string string) : M string :=
  let* genre := dict_getitem preferences "genre" in
  let* setting := dict_getitem preferences "setting" in
  let* region := dict_getitem preferences "region" in
  let* tone := dict_getitem preferences "tone" in
  let* theme := dict_getitem preferences "theme" in
  let* conflict := dict_getitem preferences "conflict" in
  let* twist := dict_getitem preferences "twist" in
  let* ending := dict_getitem preferences "ending" in
  ret (prompt_template scenario genre setting region tone theme conflict twist ending).

(** ** The orchestrator *)

(** What the widgets return in one execution of the script.
    [image_display] is what [st.image] does with the upload: it shows it, or
    raises when the bytes are not an image it can decode. *)
Record widgets : Type := Widgets {
  selected_language : language;
  uploaded_file : option string;
  chosen : selections;
  weave_button : bool;
  image_display : outcome unit
}.

(** The body of the [try] under the button. *)
Definition pipeline (env : backends) (current_lang_code : string)
    (preferences : gmap string string) : M unit :=
  let* scenario := img2txt env uploaded_image_path in
  match scenario with
  | Some scenario =>
      if truthy (PyStr scenario) then
        let* caption := translate_text env scenario current_lang_code in
        let* _ := session_set "caption" (PyStr caption) in
        let* prompt := build_prompt scenario preferences in
        let* story := txt2story env prompt in
        match story with
        | Some story =>
            if truthy (PyStr story) then
              let* _ := session_set "story_english" (PyStr story) in
              let* translated := translate_text env story current_lang_code in
              let* _ := session_set "story_translated" (PyStr translated) in
              (* [create_audio] is handed the attribute just assigned *)
              let* ok := create_audio env translated current_lang_code in
              let* _ := (if ok then session_set "audio_file_path" (PyStr story_audio_path)
                         else ret tt) in
              session_set "processing_complete" (PyBool true)
            else ret tt
        | None => ret tt
        end
      else ret tt
  | None => ret tt
  end.

Definition story_container (v : pyval) : string :=
  "<div class='story-container'>" ++ py_str v ++ "</div>".

(** The [# Display results] block; the page decoration around it (header,
    rules, expanders, footer) carries no data and is left out. *)
Definition display_results : M unit :=
  let* complete := session_get "processing_complete" in
  if truthy complete then
    let* caption := session_get "caption" in
    let* _ := (if truthy caption then emit (st_markdown (story_container caption))
               else ret tt) in
    let* story := session_get "story_translated" in
    let* _ := (if truthy story then emit (st_markdown (story_container story))
               else ret tt) in
    let* path := session_get "audio_file_path" in
    if truthy path then
      let* present := path_exists (py_str path) in
      if present then emit (st_audio (py_str path)) else ret tt
    else ret tt
  else ret tt.

Definition main (env : backends) (ui : widgets) : M unit :=
  let* _ := initialize_session_state in
  let current_lang_code := SUPPORTED_LANGUAGES (selected_language ui) in
  let preferences := get_user_preferences (chosen ui) in
  let* _ :=
    match uploaded_file ui with
    | Some bytes_data =>
        let* _ := write_file uploaded_image_path bytes_data in
        (* [st.image] stands outside the [try]: when it raises, the script
           ends here, before the button and the display block *)
        let* _ := lift (image_display ui) in
        let* _ := emit (st_image bytes_data) in
        if weave_button ui then
          try_except
            (pipeline env current_lang_code preferences)
            (fun e =>
               (* the two messages, without their leading pictograms *)
               let* _ := emit (st_error ("An error occurred: " ++ e)) in
               emit (st_warning "Please try again or contact support if the problem persists."))
        else ret tt
    | None => ret tt
    end in
  display_results.

(** One click on the button with an image in the uploader.  The button is
    only drawn below an image that [st.image] displayed, so a click comes
    with an upload that displays. *)
Definition run (env : backends) (lang : language) (bytes_data : string)
    (sel : selections) : M unit :=
  main env (Widgets lang (Some bytes_data) sel true (Ok tt)).

(** A session: the script executed once per interaction. *)
Fixpoint session (steps : list (backends * widgets)) (w : world) : world :=
  match steps with
  | [] => w
  | (env, ui) :: rest => session rest (snd (main env ui w))
  end.

(** What a computation adds to the trace. *)
Definition events_of {A} (c : M A) (w : world) : list event :=
  drop (length (trace w)) (trace (snd (c w))).

(** [needle in hay] *)
Fixpoint occurs (needle hay : string) : bool :=
  String.prefix needle hay
  || match hay with
     | EmptyString => false
     | String _ rest => occurs needle rest
     end.

(** ** What the wrappers return

    The value each wrapper hands back to [main], as a function of what
    the service answers. *)

Definition captioned (env : backends) (image : option string) : option string :=
  match captioning_model env image with
  | Ok text => Some text
  | Raise _ => None
  end.

Definition generated (env : backends) (prompt : string) : outcome string :=
  match completions_create env (story_prompt_prefix ++ prompt) with
  | Ok st => consume st EmptyString
  | Raise e => Raise e
  end.

Definition translated (env : backends) (text target_lang : string) : string :=
  if String.eqb target_lang "en" then text
  else match translator_translate env text target_lang with
       | Ok t => t
       | Raise _ => text
       end.

(** A result that passes [if result:]. *)
Definition usable (o : option string) : option string :=
  match o with
  | Some s => if truthy (PyStr s) then Some s else None
  | None => None
  end.

Definition log (w : world) (evs : list event) : world :=
  World (session_state w) (files w) (trace w ++ evs).

Definition store (k : string) (v : pyval) (w : world) : world :=
  World (<[k := v]> (session_state w)) (files w) (trace w).

(** The caption and the story a run goes on with, if any. *)
Definition scenario_of (env : backends) (image : option string) : option string :=
  usable (captioned env image).

Definition story_of (env : backends) (prompt : string) : option string :=
  match generated env prompt with
  | Ok story => usable (Some story)
  | Raise _ => None
  end.

(** The prompt [main] builds from a caption and the nine selections. *)
Definition prompt_for (scenario : string) (sel : selections) : string :=
  prompt_template scenario (genre sel) (setting sel) (region sel) (tone sel)
    (theme sel) (conflict sel) (twist sel) (ending sel).

(** [if k not in s: s[k] = v] on the store alone. *)
Definition setdefault (k : string) (v : pyval) (s : gmap string pyval) : gmap string pyval :=
  match s !! k with
  | Some _ => s
  | None => <[k := v]> s
  end.

Definition initialized (s : gmap string pyval) : gmap string pyval :=
  setdefault "processing_complete" (PyBool false)
    (setdefault "caption" PyNone
       (setdefault "audio_file_path" PyNone
          (setdefault "story_translated" PyNone
             (setdefault "story_english" PyNone s)))).

(** What a translation adds to the trace. *)
Definition translation_events (env : backends) (text target_lang : string) : list event :=
  events_of (translate_text env text target_lang) (World ∅ ∅ []).

(** The world when the block under the button starts: the session is
    initialised, the upload is on disk and shown. *)
Definition staged (bytes_data : string) (w : world) : world :=
  World (initialized (session_state w))
        (<[uploaded_image_path := bytes_data]> (files w))
        (trace w ++ [st_image bytes_data]).

(** The exception with which [st.image] ends the script, if it does. *)
Definition stopped (ui : widgets) : option string :=
  match uploaded_file ui, image_display ui with
  | Some _, Raise e => Some e
  | _, _ => None
  end.

(** The world in which the display block runs, for each way [main] can go;
    when [st.image] raises it is the world in which the script ends. *)
Definition before_display (env : backends) (ui : widgets) (w : world) : world :=
  match uploaded_file ui with
  | Some bytes_data =>
      match image_display ui with
      | Ok _ =>
          if weave_button ui then
            snd (pipeline env (SUPPORTED_LANGUAGES (selected_language ui))
                   (get_user_preferences (chosen ui)) (staged bytes_data w))
          else staged bytes_data w
      | Raise _ =>
          World (initialized (session_state w))
                (<[uploaded_image_path := bytes_data]> (files w)) (trace w)
      end
  | None => World (initialized (session_state w)) (files w) (trace w)
  end.

(** The disk after a speech synthesis that failed. *)
Definition left_by_failed_save (env : backends) (text lang : string)
    (fs : gmap string string) : gmap string string :=
  match gtts_partial env text lang with
  | Some partial => <[story_audio_path := partial]> fs
  | None => fs
  end.

(** Both captioning and story generation gave [main] something to go on. *)
Definition both_succeeded (env : backends) (bytes_data : string) (sel : selections) : Prop :=
  exists scenario story,
    scenario_of env (Some bytes_data) = Some scenario
    /\ story_of env (prompt_for scenario sel) = Some story.

(** What a run leaves for the next one to see: the two files and the
    caption and story fields. *)
Definition results (w : world)
    : option string * option string * option pyval * option pyval * option pyval :=
  (files w !! uploaded_image_path, files w !! story_audio_path,
   session_state w !! "caption", session_state w !! "story_english",
   session_state w !! "story_translated").

Definition is_audio (ev : event) : bool :=
  match ev with
  | st_audio _ => true
  | _ => false
  end.

(** The audio player is among what was shown. *)
Definition shows_audio (evs : list event) : bool := existsb is_audio evs.

(** Events of the display block. *)
Definition is_rendering (ev : event) : Prop :=
  match ev with
  | st_markdown _ | st_audio _ => True
  | _ => False
  end.

(** A computation only adds events satisfying [P] to the trace. *)
Definition appends {A} (P : event -> Prop) (c : M A) : Prop :=
  forall w, exists evs, trace (snd (c w)) = (trace w ++ evs)%list /\ Forall P evs.

(** Session states a browser session can be in between two executions of
    the script: the store starts empty and is initialised by the first
    execution. *)
Inductive reachable : world -> Prop :=
  | reachable_start (fs : gmap string string) (tr : list event) :
      reachable (snd (initialize_session_state (World ∅ fs tr)))
  | reachable_main (env : backends) (ui : widgets) (w : world) :
      reachable w -> reachable (snd (main env ui w)).

(** ** Sample inputs *)

Definition fresh : world := World ∅ ∅ [].

Definition sample_stream : stream :=
  stream_chunk (Some "Once upon a time, ") (stream_chunk (Some "a dog found the sea.") stream_end).

(** Every service answers. *)
Definition sample_env : backends :=
  Backends (fun image => Ok ("a picture of " ++ default "nothing" image))
           (fun _ => Ok sample_stream)
           (fun text dest => Ok ("[" ++ dest ++ "] " ++ text))
           (fun text lang => Ok ("mp3 of " ++ text))
           (fun _ _ => None).

(** The captioning model cannot be loaded. *)
Definition env_no_caption : backends :=
  Backends (fun _ => Raise "model not found")
           (completions_create sample_env)
           (translator_translate sample_env)
           (gtts_save sample_env)
           (gtts_partial sample_env).

(** The generation API rejects the key. *)
Definition env_no_story : backends :=
  Backends (captioning_model sample_env)
           (fun _ => Raise "401 Unauthorized")
           (translator_translate sample_env)
           (gtts_save sample_env)
           (gtts_partial sample_env).

(** The translation service is unreachable. *)
Definition env_no_translation : backends :=
  Backends (captioning_model sample_env)
           (completions_create sample_env)
           (fun _ _ => Raise "timed out")
           (gtts_save sample_env)
           (gtts_partial sample_env).

(** Speech synthesis fails after the file was opened, which leaves it
    empty; the story differs from [sample_env]'s. *)
Definition env_no_speech : backends :=
  Backends (captioning_model sample_env)
           (fun _ => Ok (stream_chunk (Some "A cat slept.") stream_end))
           (translator_translate sample_env)
           (fun _ _ => Raise "Failed to connect")
           (fun _ _ => Some EmptyString).

(** The selections of the scenario in the specification. *)
Definition sample_sel : selections :=
  Selections "East India" "Folklore" "Village Life" "Friendship and loyalty"
             "Humorous" "Hope" "Man vs. Nature" "Hidden lineage" "Happy".

Definition after_first_run : world :=
  snd (run sample_env Hindi "IMG1" sample_sel fresh).

(** A second click, on a new image, with the captioning model down. *)
Definition after_failed_caption : world :=
  snd (run env_no_caption Hindi "IMG2" sample_sel after_first_run).

(** A second click, on a new image, with speech synthesis down. *)
Definition after_failed_speech : world :=
  snd (run env_no_speech Hindi "IMG2" sample_sel after_first_run).

(** The caption of the scenario in the specification. *)
Definition sample_caption : string := "a dog running on a beach".

(** The select boxes rendered in another order. *)
Definition reordered_items (sel : selections) : list (string * string) :=
  [("ending", ending sel); ("twist", twist sel); ("conflict", conflict sel);
   ("theme", theme sel); ("tone", tone sel); ("plot", plot sel);
   ("setting", setting sel); ("genre", genre sel); ("region", region sel)].

(** ** Further notions used in statements *)

(** A streamed response that delivers [frags] and then goes on as [rest]. *)
Fixpoint fragments (frags : list string) (rest : stream) : stream :=
  match frags with
  | [] => rest
  | f :: frags' => stream_chunk (Some f) (fragments frags' rest)
  end.

(** The fragments joined in the order received. *)
Definition joined (frags : list string) : string :=
  foldr String.append EmptyString frags.

(** Calls to one of the four services. *)
Definition is_call (ev : event) : bool :=
  match ev with
  | call_captioner _ | call_completions _ | call_translator _ _ | call_gtts _ _ => true
  | _ => false
  end.

Definition is_translator_call (ev : event) : bool :=
  match ev with
  | call_translator _ _ => true
  | _ => false
  end.

(** Errors and warnings shown to the user. *)
Definition is_message (ev : event) : bool :=
  match ev with
  | st_error _ | st_warning _ => true
  | _ => false
  end.

(** The same selections with another plot. *)
Definition with_plot (p : string) (sel : selections) : selections :=
  Selections (region sel) (genre sel) (setting sel) p (tone sel) (theme sel)
             (conflict sel) (twist sel) (ending sel).

(** The five fields of the session agree with each other:
    [processing_complete] is a boolean; when it is true there are a
    non-empty English story, a translated story and a caption; when it is
    false no story and no audio path was ever stored; an audio path, when
    stored, is the fixed one and the file is on disk. *)
Definition coherent (w : world) : Prop :=
  (session_state w !! "caption" = Some PyNone
   \/ exists caption, session_state w !! "caption" = Some (PyStr caption))
  /\ (session_state w !! "audio_file_path" = Some PyNone
      \/ (session_state w !! "audio_file_path" = Some (PyStr story_audio_path)
          /\ session_state w !! "processing_complete" = Some (PyBool true)
          /\ is_Some (files w !! story_audio_path)))
  /\ ((session_state w !! "processing_complete" = Some (PyBool false)
       /\ session_state w !! "story_english" = Some PyNone
       /\ session_state w !! "story_translated" = Some PyNone)
      \/ (session_state w !! "processing_complete" = Some (PyBool true)
          /\ (exists story, session_state w !! "story_english" = Some (PyStr story)
                            /\ truthy (PyStr story) = true)
          /\ (exists text, session_state w !! "story_translated" = Some (PyStr text))
          /\ (exists caption, session_state w !! "caption" = Some (PyStr caption)))).

(** A response in three fragments. *)
Definition sample_fragments : list string := ["Once "; "upon "; "a time."].

(** What the display block shows for given values of the four fields it
    reads. *)
Definition rendered (complete caption story path : pyval) (fs : gmap string string)
    : list event :=
  if truthy complete then
    (if truthy caption then [st_markdown (story_container caption)] else [])
    ++ (if truthy story then [st_markdown (story_container story)] else [])
    ++ (if truthy path
        then match fs !! py_str path with
             | Some _ => [st_audio (py_str path)]
             | None => []
             end
        else [])
  else [].

(** * Properties *)

(** ** Stepping through the monad *)

Lemma bind_unfold {A B} (c : M A) (k : A -> M B) (w : world) :
  bind c k w = match c w with
               | (Ok a, w') => k a w'
               | (Raise e, w') => (Raise e, w')
               end.
Proof. reflexivity. Qed.

Lemma log_nil (w : world) : log w [] = w.
Proof. destruct w as [s f t]. unfold log. simpl. by rewrite app_nil_r. Qed.

Lemma log_log (w : world) (evs evs' : list event) :
  log (log w evs) evs' = log w (evs ++ evs').
Proof. unfold log. simpl. by rewrite app_assoc. Qed.

Lemma session_set_eq (k : string) (v : pyval) (w : world) :
  session_set k v w = (Ok tt, store k v w).
Proof. reflexivity. Qed.

Lemma store_log (k : string) (v : pyval) (w : world) (evs : list event) :
  store k v (log w evs) = log (store k v w) evs.
Proof. reflexivity. Qed.

Lemma ret_eq {A} (a : A) (w : world) : ret a w = (Ok a, w).
Proof. reflexivity. Qed.

(** ** The wrappers, one equation each *)

Lemma img2txt_eq (env : backends) (url : string) (w : world) :
  img2txt env url w =
    match captioning_model env (files w !! url) with
    | Ok text => (Ok (Some text), log w [call_captioner url])
    | Raise e =>
        (Ok None, log w [call_captioner url; st_error ("Error in image captioning: " ++ e)])
    end.
Proof.
  unfold img2txt, try_except, bind, emit, ret, log. simpl.
  destruct (captioning_model env (files w !! url)); simpl; [done|].
  by rewrite <- app_assoc.
Qed.

Lemma txt2story_body_eq (env : backends) (prompt : string) (w : world) :
  txt2story_body env prompt w =
    (generated env prompt, log w [call_completions (story_prompt_prefix ++ prompt)]).
Proof.
  unfold txt2story_body, generated, bind, emit, lift, log. simpl.
  by destruct (completions_create env (story_prompt_prefix ++ prompt)).
Qed.

Lemma txt2story_eq (env : backends) (prompt : string) (w : world) :
  txt2story env prompt w =
    match generated env prompt with
    | Ok story => (Ok (Some story), log w [call_completions (story_prompt_prefix ++ prompt)])
    | Raise e =>
        (Ok None, log w [call_completions (story_prompt_prefix ++ prompt);
                         st_error ("Error in story generation: " ++ e)])
    end.
Proof.
  unfold txt2story, try_except. rewrite bind_unfold, txt2story_body_eq.
  destruct (generated env prompt); [done|].
  unfold bind, emit, ret, log. simpl. by rewrite <- app_assoc.
Qed.

Lemma translate_text_eq (env : backends) (text target_lang : string) (w : world) :
  translate_text env text target_lang w =
    if String.eqb target_lang "en" then (Ok text, w)
    else match translator_translate env text target_lang with
         | Ok t => (Ok t, log w [call_translator text target_lang])
         | Raise e =>
             (Ok text,
              log w [call_translator text target_lang;
                     st_warning ("Translation failed: " ++ e ++ ". Showing original text.")])
         end.
Proof.
  unfold translate_text. destruct (String.eqb target_lang "en"); [done|].
  unfold try_except, bind, emit, lift, ret, log. simpl.
  destruct (translator_translate env text target_lang); [done|].
  simpl. by rewrite <- app_assoc.
Qed.

Lemma translate_text_returns (env : backends) (text target_lang : string) (w : world) :
  exists evs, translate_text env text target_lang w
              = (Ok (translated env text target_lang), log w evs).
Proof.
  rewrite translate_text_eq. unfold translated.
  destruct (String.eqb target_lang "en").
  - exists []. by rewrite log_nil.
  - destruct (translator_translate env text target_lang); eauto.
Qed.

Lemma img2txt_returns (env : backends) (url : string) (w : world) :
  fst (img2txt env url w) = Ok (captioned env (files w !! url)).
Proof.
  rewrite img2txt_eq. unfold captioned.
  by destruct (captioning_model env (files w !! url)).
Qed.

Lemma txt2story_returns (env : backends) (prompt : string) (w : world) :
  fst (txt2story env prompt w)
  = Ok (match generated env prompt with Ok story => Some story | Raise _ => None end).
Proof. rewrite txt2story_eq. by destruct (generated env prompt). Qed.

Lemma translate_text_run (env : backends) (text target_lang : string) (w : world) :
  translate_text env text target_lang w
  = (Ok (translated env text target_lang), log w (translation_events env text target_lang)).
Proof.
  unfold translation_events, events_of. rewrite !translate_text_eq. unfold translated.
  destruct (String.eqb target_lang "en"); simpl.
  - by rewrite log_nil.
  - by destruct (translator_translate env text target_lang).
Qed.

Lemma create_audio_eq (env : backends) (text language_code : string) (w : world) :
  create_audio env text language_code w =
    match gtts_save env text language_code with
    | Ok audio =>
        (Ok true, World (session_state w) (<[story_audio_path := audio]> (files w))
                        (trace w ++ [call_gtts text language_code]))
    | Raise e =>
        (Ok false,
         World (session_state w) (left_by_failed_save env text language_code (files w))
               (trace w ++ [call_gtts text language_code;
                            st_error ("Error in audio generation: " ++ e)]))
    end.
Proof.
  unfold create_audio, try_except, bind, emit, tts_save, write_file, ret,
    left_by_failed_save.
  simpl. destruct (gtts_save env text language_code); [done|].
  destruct (gtts_partial env text language_code); simpl; by rewrite <- app_assoc.
Qed.

(** ** Preferences and the prompt *)

Lemma build_prompt_eq (scenario : string) (sel : selections) (w : world) :
  build_prompt scenario (get_user_preferences sel) w = (Ok (prompt_for scenario sel), w).
Proof. reflexivity. Qed.

(** ** Initialisation *)

Lemma session_setdefault_eq (k : string) (v : pyval) (w : world) :
  session_setdefault k v w
  = (Ok tt, World (setdefault k v (session_state w)) (files w) (trace w)).
Proof.
  unfold session_setdefault, setdefault, session_set.
  destruct (session_state w !! k); [by destruct w | done].
Qed.

Lemma initialize_session_state_eq (w : world) :
  initialize_session_state w
  = (Ok tt, World (initialized (session_state w)) (files w) (trace w)).
Proof.
  unfold initialize_session_state.
  repeat (rewrite bind_unfold, session_setdefault_eq; simpl).
  by rewrite session_setdefault_eq.
Qed.

Lemma lookup_setdefault (k k' : string) (v : pyval) (s : gmap string pyval) :
  setdefault k v s !! k'
  = match s !! k' with
    | Some x => Some x
    | None => if decide (k = k') then Some v else None
    end.
Proof.
  unfold setdefault. destruct (s !! k) as [x|] eqn:Hk.
  - destruct (s !! k') eqn:Hk'; [done|]. case_decide; [congruence | done].
  - rewrite lookup_insert. case_decide; subst.
    + by rewrite Hk.
    + by destruct (s !! k').
Qed.

Lemma lookup_setdefault_Some (k k' : string) (v x : pyval) (s : gmap string pyval) :
  s !! k' = Some x -> setdefault k v s !! k' = Some x.
Proof. intros H. by rewrite lookup_setdefault, H. Qed.

Lemma initialized_keeps (k : string) (x : pyval) (s : gmap string pyval) :
  s !! k = Some x -> initialized s !! k = Some x.
Proof. intros H. unfold initialized. by repeat apply lookup_setdefault_Some. Qed.

Lemma initialized_default (k : string) (s : gmap string pyval) :
  initialized s !! k
  = match s !! k with
    | Some x => Some x
    | None =>
        if decide (k = "story_english") then Some PyNone
        else if decide (k = "story_translated") then Some PyNone
        else if decide (k = "audio_file_path") then Some PyNone
        else if decide (k = "caption") then Some PyNone
        else if decide (k = "processing_complete") then Some (PyBool false)
        else None
    end.
Proof.
  unfold initialized. rewrite !lookup_setdefault.
  destruct (s !! k); [done|].
  repeat case_decide; subst; done.
Qed.

Lemma initialized_processing_complete (s : gmap string pyval) :
  initialized s !! "processing_complete"
  = Some (default (PyBool false) (s !! "processing_complete")).
Proof. rewrite initialized_default. by destruct (s !! "processing_complete"). Qed.

Lemma initialized_audio_file_path (s : gmap string pyval) :
  initialized s !! "audio_file_path" = Some (default PyNone (s !! "audio_file_path")).
Proof. rewrite initialized_default. by destruct (s !! "audio_file_path"). Qed.

(** ** The pipeline, case by case *)

Lemma scenario_of_None (env : backends) (image : option string) :
  scenario_of env image = None ->
  (exists e, captioning_model env image = Raise e) \/ captioning_model env image = Ok EmptyString.
Proof.
  unfold scenario_of, captioned, usable.
  destruct (captioning_model env image) as [text|e]; [|by eauto].
  simpl. destruct text; [by right | done].
Qed.

Lemma scenario_of_Some (env : backends) (image : option string) (scenario : string) :
  scenario_of env image = Some scenario ->
  captioning_model env image = Ok scenario /\ truthy (PyStr scenario) = true.
Proof.
  unfold scenario_of, captioned, usable.
  destruct (captioning_model env image) as [text|e]; [|done].
  destruct (truthy (PyStr text)) eqn:Ht; [|done]. by intros [= <-].
Qed.

Lemma story_of_Some (env : backends) (prompt story : string) :
  story_of env prompt = Some story ->
  generated env prompt = Ok story /\ truthy (PyStr story) = true.
Proof.
  unfold story_of, usable.
  destruct (generated env prompt) as [text|e]; [|done].
  destruct (truthy (PyStr text)) eqn:Ht; [|done]. by intros [= <-].
Qed.

(** Captioning gave nothing to go on: nothing is stored. *)
Lemma pipeline_no_caption (env : backends) (lang : string) (sel : selections) (w : world) :
  scenario_of env (files w !! uploaded_image_path) = None ->
  exists evs, pipeline env lang (get_user_preferences sel) w = (Ok tt, log w evs).
Proof.
  intros Hc. unfold pipeline. rewrite bind_unfold, img2txt_eq.
  destruct (scenario_of_None _ _ Hc) as [[e He] | He]; rewrite He; eauto.
Qed.

(** The caption is stored; generation gave nothing to go on. *)
Lemma pipeline_no_story (env : backends) (lang : string) (sel : selections) (w : world)
    (scenario : string) :
  scenario_of env (files w !! uploaded_image_path) = Some scenario ->
  story_of env (prompt_for scenario sel) = None ->
  exists evs,
    pipeline env lang (get_user_preferences sel) w
    = (Ok tt, log (store "caption" (PyStr (translated env scenario lang)) w) evs).
Proof.
  intros [Hc Ht]%scenario_of_Some Hs. unfold pipeline.
  rewrite bind_unfold, img2txt_eq, Hc, Ht.
  rewrite bind_unfold.
  destruct (translate_text_returns env scenario lang (log w [call_captioner uploaded_image_path]))
    as [evs ->].
  rewrite log_log. rewrite bind_unfold. unfold session_set at 1. simpl.
  rewrite bind_unfold, build_prompt_eq, bind_unfold, txt2story_eq.
  unfold story_of, usable in Hs.
  destruct (generated env (prompt_for scenario sel)) as [story|e].
  - destruct (truthy (PyStr story)) eqn:Hstory; [done|].
    unfold ret, log, store. simpl. rewrite <- app_assoc. eauto.
  - unfold ret, log, store. simpl. rewrite <- app_assoc. eauto.
Qed.

(** Generation raised: the caption is stored, the failure is reported, and
    that is the last thing the pipeline does. *)
Lemma pipeline_generation_raises (env : backends) (lang : string) (sel : selections)
    (w : world) (scenario e : string) :
  scenario_of env (files w !! uploaded_image_path) = Some scenario ->
  generated env (prompt_for scenario sel) = Raise e ->
  pipeline env lang (get_user_preferences sel) w
  = (Ok tt,
     log (store "caption" (PyStr (translated env scenario lang)) w)
       ([call_captioner uploaded_image_path]
        ++ translation_events env scenario lang
        ++ [call_completions (story_prompt_prefix ++ prompt_for scenario sel);
            st_error ("Error in story generation: " ++ e)])).
Proof.
  intros [Hc Ht]%scenario_of_Some Hg. unfold pipeline.
  rewrite bind_unfold, img2txt_eq, Hc, Ht.
  rewrite bind_unfold, translate_text_run, log_log.
  rewrite bind_unfold, session_set_eq, store_log.
  rewrite bind_unfold, build_prompt_eq, bind_unfold, txt2story_eq, Hg.
  by rewrite ret_eq, log_log, <- app_assoc.
Qed.

(** Caption and story are there, speech synthesis raised. *)
Lemma pipeline_no_audio (env : backends) (lang : string) (sel : selections) (w : world)
    (scenario story e : string) :
  scenario_of env (files w !! uploaded_image_path) = Some scenario ->
  story_of env (prompt_for scenario sel) = Some story ->
  gtts_save env (translated env story lang) lang = Raise e ->
  exists evs,
    pipeline env lang (get_user_preferences sel) w
    = (Ok tt,
       World
         (<["processing_complete" := PyBool true]>
            (<["story_translated" := PyStr (translated env story lang)]>
               (<["story_english" := PyStr story]>
                  (<["caption" := PyStr (translated env scenario lang)]>
                     (session_state w)))))
         (left_by_failed_save env (translated env story lang) lang (files w))
         (trace w ++ evs ++ [call_gtts (translated env story lang) lang;
                             st_error ("Error in audio generation: " ++ e)])).
Proof.
  intros [Hc Ht]%scenario_of_Some [Hg Hs]%story_of_Some Ha. unfold pipeline.
  rewrite bind_unfold, img2txt_eq, Hc, Ht.
  rewrite bind_unfold, translate_text_run, log_log.
  rewrite bind_unfold, session_set_eq, store_log.
  rewrite bind_unfold, build_prompt_eq, bind_unfold, txt2story_eq, Hg, Hs, log_log.
  rewrite bind_unfold, session_set_eq, store_log.
  rewrite bind_unfold, translate_text_run, log_log.
  rewrite bind_unfold, session_set_eq, store_log.
  rewrite bind_unfold, create_audio_eq, Ha.
  rewrite bind_unfold, ret_eq, session_set_eq.
  unfold store, log. cbn [session_state files trace].
  eexists. rewrite <- app_assoc. reflexivity.
Qed.

(** All three steps succeeded. *)
Lemma pipeline_full (env : backends) (lang : string) (sel : selections) (w : world)
    (scenario story audio : string) :
  scenario_of env (files w !! uploaded_image_path) = Some scenario ->
  story_of env (prompt_for scenario sel) = Some story ->
  gtts_save env (translated env story lang) lang = Ok audio ->
  exists evs,
    pipeline env lang (get_user_preferences sel) w
    = (Ok tt,
       World
         (<["processing_complete" := PyBool true]>
            (<["audio_file_path" := PyStr story_audio_path]>
               (<["story_translated" := PyStr (translated env story lang)]>
                  (<["story_english" := PyStr story]>
                     (<["caption" := PyStr (translated env scenario lang)]>
                        (session_state w))))))
         (<[story_audio_path := audio]> (files w))
         (trace w ++ evs ++ [call_gtts (translated env story lang) lang])).
Proof.
  intros [Hc Ht]%scenario_of_Some [Hg Hs]%story_of_Some Ha. unfold pipeline.
  rewrite bind_unfold, img2txt_eq, Hc, Ht.
  rewrite bind_unfold, translate_text_run, log_log.
  rewrite bind_unfold, session_set_eq, store_log.
  rewrite bind_unfold, build_prompt_eq, bind_unfold, txt2story_eq, Hg, Hs, log_log.
  rewrite bind_unfold, session_set_eq, store_log.
  rewrite bind_unfold, translate_text_run, log_log.
  rewrite bind_unfold, session_set_eq, store_log.
  rewrite bind_unfold, create_audio_eq, Ha.
  rewrite bind_unfold, session_set_eq, session_set_eq.
  unfold store, log. cbn [session_state files trace].
  eexists. rewrite <- app_assoc. reflexivity.
Qed.

Lemma pipeline_cases (env : backends) (lang : string) (sel : selections) (w : world) :
  exists evs,
    (scenario_of env (files w !! uploaded_image_path) = None
     /\ pipeline env lang (get_user_preferences sel) w = (Ok tt, log w evs))
    \/ (exists scenario,
          scenario_of env (files w !! uploaded_image_path) = Some scenario
          /\ story_of env (prompt_for scenario sel) = None
          /\ pipeline env lang (get_user_preferences sel) w
             = (Ok tt, log (store "caption" (PyStr (translated env scenario lang)) w) evs))
    \/ (exists scenario story e,
          scenario_of env (files w !! uploaded_image_path) = Some scenario
          /\ story_of env (prompt_for scenario sel) = Some story
          /\ gtts_save env (translated env story lang) lang = Raise e
          /\ pipeline env lang (get_user_preferences sel) w
             = (Ok tt,
                World
                  (<["processing_complete" := PyBool true]>
                     (<["story_translated" := PyStr (translated env story lang)]>
                        (<["story_english" := PyStr story]>
                           (<["caption" := PyStr (translated env scenario lang)]>
                              (session_state w)))))
                  (left_by_failed_save env (translated env story lang) lang (files w))
                  (trace w ++ evs)))
    \/ (exists scenario story audio,
          scenario_of env (files w !! uploaded_image_path) = Some scenario
          /\ story_of env (prompt_for scenario sel) = Some story
          /\ gtts_save env (translated env story lang) lang = Ok audio
          /\ pipeline env lang (get_user_preferences sel) w
             = (Ok tt,
                World
                  (<["processing_complete" := PyBool true]>
                     (<["audio_file_path" := PyStr story_audio_path]>
                        (<["story_translated" := PyStr (translated env story lang)]>
                           (<["story_english" := PyStr story]>
                              (<["caption" := PyStr (translated env scenario lang)]>
                                 (session_state w))))))
                  (<[story_audio_path := audio]> (files w))
                  (trace w ++ evs))).
Proof.
  destruct (scenario_of env (files w !! uploaded_image_path)) as [scenario|] eqn:Hc.
  - destruct (story_of env (prompt_for scenario sel)) as [story|] eqn:Hs.
    + destruct (gtts_save env (translated env story lang) lang) as [audio|e] eqn:Ha.
      * destruct (pipeline_full env lang sel w _ _ _ Hc Hs Ha) as [evs Hp].
        eexists. do 3 right. eauto 10.
      * destruct (pipeline_no_audio env lang sel w _ _ _ Hc Hs Ha) as [evs Hp].
        eexists. do 2 right. left. eauto 10.
    + destruct (pipeline_no_story env lang sel w _ Hc Hs) as [evs Hp].
      eexists. right. left. eauto.
  - destruct (pipeline_no_caption env lang sel w Hc) as [evs Hp].
    eexists. left. eauto.
Qed.

Lemma pipeline_returns (env : backends) (lang : string) (sel : selections) (w : world) :
  fst (pipeline env lang (get_user_preferences sel) w) = Ok tt.
Proof.
  destruct (pipeline_cases env lang sel w)
    as [evs [[_ ->] | [(? & _ & _ & ->) | [(? & ? & ? & _ & _ & _ & ->)
                                          | (? & ? & ? & _ & _ & _ & ->)]]]]; done.
Qed.

(** ** The script as a whole *)

Lemma main_eq (env : backends) (ui : widgets) (w : world) :
  main env ui w
  = match stopped ui with
    | Some e => (Raise e, before_display env ui w)
    | None => display_results (before_display env ui w)
    end.
Proof.
  unfold main, before_display, stopped.
  rewrite bind_unfold, initialize_session_state_eq.
  rewrite bind_unfold.
  destruct (uploaded_file ui) as [bytes_data|]; [|done].
  rewrite bind_unfold. unfold write_file at 1. cbn [session_state files trace].
  rewrite bind_unfold. unfold lift at 1.
  destruct (image_display ui) as [[]|e]; [|done].
  rewrite bind_unfold. unfold emit at 1. cbn [session_state files trace].
  fold (staged bytes_data w).
  destruct (weave_button ui); [|done].
  unfold try_except.
  pose proof (pipeline_returns env (SUPPORTED_LANGUAGES (selected_language ui))
                (chosen ui) (staged bytes_data w)) as Hp.
  destruct (pipeline env (SUPPORTED_LANGUAGES (selected_language ui))
              (get_user_preferences (chosen ui)) (staged bytes_data w))
    as [[[]|e] w']; [done | discriminate Hp].
Qed.

Lemma run_eq (env : backends) (lang : language) (bytes_data : string) (sel : selections)
    (w : world) :
  run env lang bytes_data sel w
  = display_results
      (snd (pipeline env (SUPPORTED_LANGUAGES lang) (get_user_preferences sel)
              (staged bytes_data w))).
Proof. unfold run. by rewrite main_eq. Qed.

(** Rendering reads the session and the disk and writes to neither. *)
Lemma display_results_frame (w : world) :
  exists r evs, display_results w = (r, log w evs).
Proof.
  assert (Hnil : forall r : outcome unit, exists r' evs, (r, w) = (r', log w evs)).
  { intros r. exists r, []. by rewrite log_nil. }
  unfold display_results, session_get, path_exists, bind, emit, ret, log.
  repeat (case_match; simplify_eq; cbn [session_state files trace] in * );
    try apply Hnil; rewrite <- ?app_assoc; eauto.
Qed.

Lemma display_results_session (w : world) :
  session_state (snd (display_results w)) = session_state w.
Proof. by destruct (display_results_frame w) as (r & evs & ->). Qed.

Lemma display_results_files (w : world) :
  files (snd (display_results w)) = files w.
Proof. by destruct (display_results_frame w) as (r & evs & ->). Qed.

Lemma run_session (env : backends) (lang : language) (bytes_data : string)
    (sel : selections) (w : world) :
  session_state (snd (run env lang bytes_data sel w))
  = session_state (snd (pipeline env (SUPPORTED_LANGUAGES lang) (get_user_preferences sel)
                          (staged bytes_data w))).
Proof. by rewrite run_eq, display_results_session. Qed.

Lemma run_files (env : backends) (lang : language) (bytes_data : string)
    (sel : selections) (w : world) :
  files (snd (run env lang bytes_data sel w))
  = files (snd (pipeline env (SUPPORTED_LANGUAGES lang) (get_user_preferences sel)
                  (staged bytes_data w))).
Proof. by rewrite run_eq, display_results_files. Qed.

Lemma staged_image (bytes_data : string) (w : world) :
  files (staged bytes_data w) !! uploaded_image_path = Some bytes_data.
Proof. unfold staged. cbn [files]. apply lookup_insert_eq. Qed.

(** ** What is added to the trace *)

Section Appends.
Context (P : event -> Prop).

Lemma appends_ret {A} (a : A) : appends P (ret a).
Proof. intros w. exists []. by rewrite app_nil_r. Qed.

Lemma appends_raise {A} (e : string) : appends P (@raise A e).
Proof. intros w. exists []. by rewrite app_nil_r. Qed.

Lemma appends_lift {A} (o : outcome A) : appends P (lift o).
Proof. intros w. exists []. by rewrite app_nil_r. Qed.

Lemma appends_emit (ev : event) : P ev -> appends P (emit ev).
Proof. intros Hev w. exists [ev]. auto. Qed.

Lemma appends_session_set (k : string) (v : pyval) : appends P (session_set k v).
Proof. intros w. exists []. by rewrite app_nil_r. Qed.

Lemma appends_session_get (k : string) : appends P (session_get k).
Proof.
  intros w. exists []. unfold session_get.
  destruct (session_state w !! k); by rewrite app_nil_r.
Qed.

Lemma appends_session_setdefault (k : string) (v : pyval) :
  appends P (session_setdefault k v).
Proof.
  intros w. exists []. unfold session_setdefault.
  destruct (session_state w !! k); by rewrite app_nil_r.
Qed.

Lemma appends_write_file (path data : string) : appends P (write_file path data).
Proof. intros w. exists []. by rewrite app_nil_r. Qed.

Lemma appends_path_exists (path : string) : appends P (path_exists path).
Proof. intros w. exists []. by rewrite app_nil_r. Qed.

Lemma appends_tts_save (env : backends) (text lang path : string) :
  appends P (tts_save env text lang path).
Proof.
  intros w. exists []. unfold tts_save.
  destruct (gtts_save env text lang); [by rewrite app_nil_r|].
  destruct (gtts_partial env text lang); by rewrite app_nil_r.
Qed.

Lemma appends_read {A} (f : world -> outcome A) : appends P (fun w => (f w, w)).
Proof. intros w. exists []. by rewrite app_nil_r. Qed.

Lemma appends_bind {A B} (c : M A) (k : A -> M B) :
  appends P c -> (forall a, appends P (k a)) -> appends P (bind c k).
Proof.
  intros Hc Hk w. unfold bind. destruct (Hc w) as (evs & Ht & HP).
  destruct (c w) as [[a|e] w']; simpl in Ht.
  - destruct (Hk a w') as (evs' & Ht' & HP'). exists (evs ++ evs')%list.
    rewrite Ht', Ht, app_assoc. split; [done | by apply Forall_app].
  - exists evs. by split.
Qed.

Lemma appends_try_except {A} (body : M A) (handler : string -> M A) :
  appends P body -> (forall e, appends P (handler e)) -> appends P (try_except body handler).
Proof.
  intros Hc Hk w. unfold try_except. destruct (Hc w) as (evs & Ht & HP).
  destruct (body w) as [[a|e] w']; simpl in Ht.
  - exists evs. by split.
  - destruct (Hk e w') as (evs' & Ht' & HP'). exists (evs ++ evs')%list.
    rewrite Ht', Ht, app_assoc. split; [done | by apply Forall_app].
Qed.
End Appends.

Ltac appends_step :=
  first
    [ apply appends_bind; [|intros ?]
    | apply appends_try_except; [|intros ?]
    | apply appends_ret
    | apply appends_raise
    | apply appends_lift
    | apply appends_session_set
    | apply appends_session_get
    | apply appends_session_setdefault
    | apply appends_write_file
    | apply appends_path_exists
    | apply appends_tts_save
    | apply appends_read
    | apply appends_emit; done
    | match goal with
      | |- appends _ (if ?b then _ else _) => destruct b
      | |- appends _ (match ?o with Some _ => _ | None => _ end) => destruct o
      end ].

Lemma pipeline_appends (env : backends) (lang : string) (prefs : gmap string string) :
  appends (fun ev => is_audio ev = false) (pipeline env lang prefs).
Proof.
  unfold pipeline, img2txt, translate_text, build_prompt, dict_getitem, txt2story,
    txt2story_body, create_audio.
  repeat appends_step.
Qed.

Lemma display_results_appends : appends is_rendering display_results.
Proof. unfold display_results. repeat appends_step. Qed.

Lemma shows_audio_app (evs evs' : list event) :
  shows_audio (evs ++ evs') = shows_audio evs || shows_audio evs'.
Proof. apply existsb_app. Qed.

Lemma shows_audio_none (evs : list event) :
  Forall (fun ev => is_audio ev = false) evs -> shows_audio evs = false.
Proof.
  induction 1 as [|ev evs Hev _ IH]; [done|].
  unfold shows_audio in *. simpl. by rewrite Hev, IH.
Qed.

Lemma emit_eq (ev : event) (w : world) : emit ev w = (Ok tt, log w [ev]).
Proof. reflexivity. Qed.

(** With no audio path in the session the player is not rendered. *)
Lemma display_results_no_player (w : world) (v : pyval) :
  session_state w !! "audio_file_path" = Some v -> truthy v = false ->
  exists r evs, display_results w = (r, log w evs) /\ shows_audio evs = false.
Proof.
  intros Hpath Hv.
  assert (Hnil : forall r : outcome unit,
             exists r' evs, (r, w) = (r', log w evs) /\ shows_audio evs = false).
  { intros r. exists r, []. by rewrite log_nil. }
  unfold display_results.
  rewrite bind_unfold. unfold session_get at 1.
  destruct (session_state w !! "processing_complete") as [complete|]; [|apply Hnil].
  destruct (truthy complete); [|apply Hnil].
  rewrite bind_unfold. unfold session_get at 1.
  destruct (session_state w !! "caption") as [caption|]; [|apply Hnil].
  rewrite bind_unfold.
  assert (exists evs1, (if truthy caption then emit (st_markdown (story_container caption))
                        else ret tt) w = (Ok tt, log w evs1) /\ shows_audio evs1 = false)
    as (evs1 & -> & H1).
  { destruct (truthy caption); [by exists [st_markdown (story_container caption)]|].
    exists []. by rewrite log_nil. }
  rewrite bind_unfold. unfold session_get at 1. cbn [log session_state].
  destruct (session_state w !! "story_translated") as [story|]; [|by eauto].
  rewrite bind_unfold. fold (log w evs1).
  assert (exists evs2, (if truthy story then emit (st_markdown (story_container story))
                        else ret tt) (log w evs1) = (Ok tt, log w evs2)
                       /\ shows_audio evs2 = false)
    as (evs2 & -> & H2).
  { destruct (truthy story).
    - exists (evs1 ++ [st_markdown (story_container story)])%list.
      rewrite emit_eq, log_log, shows_audio_app, H1. done.
    - exists evs1. by rewrite ret_eq. }
  rewrite bind_unfold. unfold session_get at 1. cbn [log session_state].
  rewrite Hpath, Hv. fold (log w evs2). rewrite ret_eq. eauto.
Qed.

(** ** The translator *)

(** C5.  When the target language code is the pivot code "en",
    [translate_text] returns its input unchanged and calls no service: the
    world, and with it the trace of calls, is exactly as before. *)
Theorem translate_text_pivot_identity (env : backends) (text : string) (w : world) :
  translate_text env text "en" w = (Ok text, w)
  /\ events_of (translate_text env text "en") w = [].
Proof.
  split; [reflexivity|].
  unfold events_of, translate_text. simpl. apply drop_all.
Qed.

(** C6.  For a target other than "en", when the translation backend raises,
    [translate_text] returns normally with the original text; all it leaves
    behind is the call and a warning. *)
Theorem translate_text_fail_soft (env : backends) (text target_lang e : string)
    (w : world) :
  target_lang <> "en" ->
  translator_translate env text target_lang = Raise e ->
  translate_text env text target_lang w
  = (Ok text,
     log w [call_translator text target_lang;
            st_warning ("Translation failed: " ++ e ++ ". Showing original text.")]).
Proof.
  intros Hne Hraise. rewrite translate_text_eq, Hraise.
  by apply String.eqb_neq in Hne as ->.
Qed.

Lemma translate_text_fail_soft_witness :
  translate_text env_no_translation "a dog" "hi" fresh
  = (Ok "a dog",
     log fresh [call_translator "a dog" "hi";
                st_warning "Translation failed: timed out. Showing original text."]).
Proof.
  apply (translate_text_fail_soft env_no_translation "a dog" "hi" "timed out" fresh).
  - discriminate.
  - reflexivity.
Defined.

(** ** Story generation *)

Lemma run_trace (env : backends) (lang : language) (bytes_data : string)
    (sel : selections) (w : world) :
  exists rendered,
    trace (snd (run env lang bytes_data sel w))
    = (trace (snd (pipeline env (SUPPORTED_LANGUAGES lang) (get_user_preferences sel)
                     (staged bytes_data w))) ++ rendered)%list
    /\ Forall is_rendering rendered.
Proof. rewrite run_eq. apply display_results_appends. Qed.

(** C7.  When the body of [txt2story] raises, the wrapper reports the error
    and returns [None] instead of raising.  In a run that gets that far the
    error report is the last thing the pipeline does: no translation of a
    story and no speech synthesis follow, only rendering, and the run
    assigns no session field but the caption and leaves the audio file
    alone. *)
Theorem generation_failure_skips_rest (env : backends) (lang : language)
    (bytes_data : string) (sel : selections) (scenario e : string) (w w0 w0' : world) :
  scenario_of env (Some bytes_data) = Some scenario ->
  txt2story_body env (prompt_for scenario sel) w0 = (Raise e, w0') ->
  txt2story env (prompt_for scenario sel) w0
  = (Ok None, log w0' [st_error ("Error in story generation: " ++ e)])
  /\ (exists rendered,
        events_of (run env lang bytes_data sel) w
        = ([st_image bytes_data; call_captioner uploaded_image_path]
           ++ translation_events env scenario (SUPPORTED_LANGUAGES lang)
           ++ [call_completions (story_prompt_prefix ++ prompt_for scenario sel);
               st_error ("Error in story generation: " ++ e)]
           ++ rendered)%list
        /\ Forall is_rendering rendered)
  /\ (forall k, k <> "caption" ->
        session_state (snd (run env lang bytes_data sel w)) !! k
        = initialized (session_state w) !! k)
  /\ files (snd (run env lang bytes_data sel w)) !! story_audio_path
     = files w !! story_audio_path.
Proof.
  intros Hc Hbody.
  assert (Hg : generated env (prompt_for scenario sel) = Raise e).
  { rewrite txt2story_body_eq in Hbody. congruence. }
  rewrite <- (staged_image bytes_data w) in Hc.
  pose proof (pipeline_generation_raises env (SUPPORTED_LANGUAGES lang) sel
                (staged bytes_data w) scenario e Hc Hg) as Hp.
  split; [|split; [|split]].
  - unfold txt2story, try_except. rewrite bind_unfold, Hbody. reflexivity.
  - destruct (run_trace env lang bytes_data sel w) as (rendered & Ht & Hr).
    exists rendered. split; [|done].
    unfold events_of. rewrite Ht, Hp. unfold log, store, staged. cbn [snd trace].
    rewrite <- !app_assoc. rewrite drop_app_length. reflexivity.
  - intros k Hk. rewrite run_session, Hp. unfold log, store, staged.
    cbn [snd session_state]. by rewrite lookup_insert_ne.
  - rewrite run_files, Hp. unfold log, store, staged. cbn [snd files].
    by rewrite lookup_insert_ne.
Qed.

Lemma generation_failure_skips_rest_witness :
  txt2story env_no_story (prompt_for "a picture of IMG1" sample_sel) fresh
  = (Ok None,
     log (log fresh [call_completions
                       (story_prompt_prefix ++ prompt_for "a picture of IMG1" sample_sel)])
       [st_error "Error in story generation: 401 Unauthorized"])
  /\ (exists rendered,
        events_of (run env_no_story Hindi "IMG1" sample_sel) fresh
        = ([st_image "IMG1"; call_captioner uploaded_image_path]
           ++ translation_events env_no_story "a picture of IMG1" "hi"
           ++ [call_completions
                 (story_prompt_prefix ++ prompt_for "a picture of IMG1" sample_sel);
               st_error "Error in story generation: 401 Unauthorized"]
           ++ rendered)%list
        /\ Forall is_rendering rendered)
  /\ (forall k, k <> "caption" ->
        session_state (snd (run env_no_story Hindi "IMG1" sample_sel fresh)) !! k
        = initialized ∅ !! k)
  /\ files (snd (run env_no_story Hindi "IMG1" sample_sel fresh)) !! story_audio_path
     = None.
Proof.
  apply (generation_failure_skips_rest env_no_story Hindi "IMG1" sample_sel
           "a picture of IMG1" "401 Unauthorized" fresh fresh).
  - reflexivity.
  - reflexivity.
Defined.

(** ** Session invariants *)

Lemma scenario_story_unique (env : backends) (image : option string) (sel : selections)
    (scenario : string) :
  scenario_of env image = Some scenario ->
  story_of env (prompt_for scenario sel) = None ->
  ~ exists scenario' story,
      scenario_of env image = Some scenario'
      /\ story_of env (prompt_for scenario' sel) = Some story.
Proof. intros Hc Hs (scenario' & story & Hc' & Hs'). congruence. Qed.

(** The flag after the pipeline: set when caption and story were both
    there, untouched otherwise. *)
Lemma pipeline_processing_complete (env : backends) (lang : string) (sel : selections)
    (w : world) :
  let after := session_state (snd (pipeline env lang (get_user_preferences sel) w)) in
  ((exists scenario story,
      scenario_of env (files w !! uploaded_image_path) = Some scenario
      /\ story_of env (prompt_for scenario sel) = Some story)
   /\ after !! "processing_complete" = Some (PyBool true))
  \/ (~ (exists scenario story,
           scenario_of env (files w !! uploaded_image_path) = Some scenario
           /\ story_of env (prompt_for scenario sel) = Some story)
      /\ after !! "processing_complete" = session_state w !! "processing_complete").
Proof.
  intros after. subst after.
  destruct (pipeline_cases env lang sel w)
    as [evs [[Hc ->] | [(sc & Hc & Hs & ->) | [(sc & st & e & Hc & Hs & _ & ->)
                                              | (sc & st & a & Hc & Hs & _ & ->)]]]].
  - right. split; [|done]. intros (sc & st & Hc' & _). congruence.
  - right. split; [by eapply scenario_story_unique|].
    unfold log, store. cbn [snd session_state]. by rewrite lookup_insert_ne.
  - left. split; [by eauto|].
    unfold log, store. cbn [snd session_state]. by rewrite lookup_insert_eq.
  - left. split; [by eauto|].
    cbn [snd session_state]. by rewrite lookup_insert_eq.
Qed.

(** The audio path after the pipeline: the constant, or untouched. *)
Lemma pipeline_audio_file_path (env : backends) (lang : string) (sel : selections)
    (w : world) :
  let after := session_state (snd (pipeline env lang (get_user_preferences sel) w)) in
  after !! "audio_file_path" = Some (PyStr story_audio_path)
  \/ after !! "audio_file_path" = session_state w !! "audio_file_path".
Proof.
  intros after. subst after.
  destruct (pipeline_cases env lang sel w)
    as [evs [[Hc ->] | [(sc & Hc & Hs & ->) | [(sc & st & e & Hc & Hs & _ & ->)
                                              | (sc & st & a & Hc & Hs & _ & ->)]]]];
    unfold log, store; cbn [snd session_state].
  - by right.
  - right. by rewrite lookup_insert_ne.
  - right. by rewrite !lookup_insert_ne.
  - left. rewrite lookup_insert_ne by done. by rewrite lookup_insert_eq.
Qed.

Lemma default_false_true (o : option pyval) :
  Some (default (PyBool false) o) = Some (PyBool true) <-> o = Some (PyBool true).
Proof. destruct o; simpl; split; congruence. Qed.

(** C1, as the code has it.  After a run, [processing_complete] is true
    exactly when captioning and generation both succeeded in that run or
    the flag was already true before it: a failed run leaves the flag as
    it found it. *)
Theorem processing_complete_after_run (env : backends) (lang : language)
    (bytes_data : string) (sel : selections) (w : world) :
  session_state (snd (run env lang bytes_data sel w)) !! "processing_complete"
  = Some (PyBool true)
  <-> (session_state w !! "processing_complete" = Some (PyBool true)
       \/ both_succeeded env bytes_data sel).
Proof.
  rewrite run_session. unfold both_succeeded.
  destruct (pipeline_processing_complete env (SUPPORTED_LANGUAGES lang) sel
              (staged bytes_data w)) as [[Hboth ->] | [Hnot ->]];
    rewrite staged_image in *.
  - tauto.
  - unfold staged. cbn [session_state].
    rewrite initialized_processing_complete, default_false_true. tauto.
Qed.

(** C1 as stated fails: after a complete first run, a second run whose
    captioning fails still ends with [processing_complete] true. *)
Lemma processing_complete_survives_failed_run :
  ~ (session_state (snd (run env_no_caption Hindi "IMG2" sample_sel after_first_run))
       !! "processing_complete" = Some (PyBool true)
     <-> both_succeeded env_no_caption "IMG2" sample_sel).
Proof.
  intros [Hto _].
  destruct Hto as (scenario & story & Hc & _); [by vm_compute|].
  discriminate Hc.
Qed.

Lemma main_session (env : backends) (ui : widgets) (w : world) :
  session_state (snd (main env ui w)) = session_state (before_display env ui w).
Proof. rewrite main_eq. destruct (stopped ui); [done | apply display_results_session]. Qed.

Lemma main_processing_complete (env : backends) (ui : widgets) (w : world) :
  session_state w !! "processing_complete" = Some (PyBool true) ->
  session_state (snd (main env ui w)) !! "processing_complete" = Some (PyBool true).
Proof.
  intros Hpc. rewrite main_session. unfold before_display.
  assert (Hinit : initialized (session_state w) !! "processing_complete"
                  = Some (PyBool true)) by by apply initialized_keeps.
  destruct (uploaded_file ui) as [bytes_data|]; [|done].
  destruct (image_display ui); [|done].
  destruct (weave_button ui); [|done].
  destruct (pipeline_processing_complete env (SUPPORTED_LANGUAGES (selected_language ui))
              (chosen ui) (staged bytes_data w)) as [[_ ->] | [_ ->]]; done.
Qed.

(** C9.  Once [processing_complete] is true it stays true: initialisation
    keeps every field that is already there, and no execution of the
    script, whatever the widgets and the services do, takes the flag
    back -- so it is still true after any number of further executions. *)
Theorem processing_complete_monotone (steps : list (backends * widgets)) (w : world) :
  session_state w !! "processing_complete" = Some (PyBool true) ->
  (forall k v, session_state w !! k = Some v ->
               session_state (snd (initialize_session_state w)) !! k = Some v)
  /\ session_state (session steps w) !! "processing_complete" = Some (PyBool true).
Proof.
  intros Hpc. split.
  - intros k v Hk. rewrite initialize_session_state_eq. by apply initialized_keeps.
  - revert w Hpc. induction steps as [|[env ui] rest IH]; intros w Hpc; [done|].
    simpl. apply IH. by apply main_processing_complete.
Qed.

Lemma processing_complete_monotone_witness :
  (forall k v, session_state after_first_run !! k = Some v ->
               session_state (snd (initialize_session_state after_first_run)) !! k = Some v)
  /\ session_state
       (session [(env_no_caption, Widgets Tamil (Some "IMG2") sample_sel true (Ok tt));
                 (env_no_story, Widgets English None sample_sel false (Ok tt))]
                after_first_run)
       !! "processing_complete" = Some (PyBool true).
Proof.
  apply (processing_complete_monotone
           [(env_no_caption, Widgets Tamil (Some "IMG2") sample_sel true (Ok tt));
            (env_no_story, Widgets English None sample_sel false (Ok tt))]
           after_first_run).
  vm_compute. reflexivity.
Defined.

Lemma main_audio_file_path (env : backends) (ui : widgets) (w : world) :
  session_state (snd (main env ui w)) !! "audio_file_path" = Some (PyStr story_audio_path)
  \/ session_state (snd (main env ui w)) !! "audio_file_path"
     = initialized (session_state w) !! "audio_file_path".
Proof.
  rewrite main_session. unfold before_display.
  destruct (uploaded_file ui) as [bytes_data|]; [|by right].
  destruct (image_display ui); [|by right].
  destruct (weave_button ui); [|by right].
  apply pipeline_audio_file_path.
Qed.

(** C10.  In every reachable session state [audio_file_path] is [None] or
    the string "story_audio.mp3". *)
Theorem audio_file_path_values (w : world) :
  reachable w ->
  session_state w !! "audio_file_path" = Some PyNone
  \/ session_state w !! "audio_file_path" = Some (PyStr "story_audio.mp3").
Proof.
  induction 1 as [fs tr | env ui w _ IH].
  - left. by rewrite initialize_session_state_eq.
  - destruct (main_audio_file_path env ui w) as [-> | ->]; [by right|].
    rewrite initialized_audio_file_path.
    destruct IH as [-> | ->]; [by left | by right].
Qed.

Lemma audio_file_path_values_witness :
  session_state
    (snd (main env_no_speech (Widgets Hindi (Some "IMG2") sample_sel true (Ok tt))
            (snd (main sample_env (Widgets Hindi (Some "IMG1") sample_sel true (Ok tt))
                    (snd (initialize_session_state fresh))))))
    !! "audio_file_path" = Some PyNone
  \/ session_state
       (snd (main env_no_speech (Widgets Hindi (Some "IMG2") sample_sel true (Ok tt))
               (snd (main sample_env (Widgets Hindi (Some "IMG1") sample_sel true (Ok tt))
                       (snd (initialize_session_state fresh))))))
       !! "audio_file_path" = Some (PyStr "story_audio.mp3").
Proof.
  apply audio_file_path_values.
  apply reachable_main, reachable_main. apply (reachable_start ∅ []).
Defined.

Lemma initialized_idem (s : gmap string pyval) : initialized (initialized s) = initialized s.
Proof.
  apply map_eq. intros k. rewrite (initialized_default k (initialized s)).
  rewrite (initialized_default k s). destruct (s !! k); [done|].
  repeat case_decide; done.
Qed.

Lemma main_initialized (env : backends) (ui : widgets) (w : world) :
  main env ui (snd (initialize_session_state w)) = main env ui w.
Proof.
  rewrite !main_eq. f_equal. rewrite initialize_session_state_eq.
  unfold before_display, staged. cbn [snd session_state files trace].
  by rewrite initialized_idem.
Qed.

Lemma reachable_session (steps : list (backends * widgets)) (w : world) :
  reachable w -> reachable (session steps w).
Proof.
  revert w. induction steps as [|[env ui] rest IH]; intros w Hw; [done|].
  simpl. by apply IH, reachable_main.
Qed.

(** Every state of a session that started with an empty store and has
    executed the script at least once is reachable. *)
Lemma session_reachable (env : backends) (ui : widgets) (steps : list (backends * widgets))
    (fs : gmap string string) (tr : list event) :
  reachable (session ((env, ui) :: steps) (World ∅ fs tr)).
Proof.
  simpl. apply reachable_session. rewrite <- main_initialized.
  apply reachable_main, reachable_start.
Qed.

(** ** Re-running the pipeline *)

(** C2, as the code has it.  A run always overwrites the image file.  It
    overwrites the caption when captioning succeeds, the story when
    generation succeeds too, and the audio file and its path when speech
    synthesis succeeds as well; after such a run the image, audio, caption
    and story are those of this run alone, whatever was there before.
    When a step fails, the session fields of that step and of the later
    ones keep the values they had: a failed captioning leaves the whole
    session as it was, a failed generation changes the caption only, a
    failed synthesis leaves the audio path as it was.  The audio file
    keeps its content when synthesis is not reached; a failed synthesis
    leaves it as it was or holding what the failed save had written. *)
Theorem run_overwrites (env : backends) (lang : language) (bytes_data : string)
    (sel : selections) (w : world) :
  files (snd (run env lang bytes_data sel w)) !! uploaded_image_path = Some bytes_data
  /\ (scenario_of env (Some bytes_data) = None ->
      session_state (snd (run env lang bytes_data sel w)) = initialized (session_state w)
      /\ files (snd (run env lang bytes_data sel w)) !! story_audio_path
         = files w !! story_audio_path)
  /\ forall scenario,
       scenario_of env (Some bytes_data) = Some scenario ->
       session_state (snd (run env lang bytes_data sel w)) !! "caption"
       = Some (PyStr (translated env scenario (SUPPORTED_LANGUAGES lang)))
       /\ (story_of env (prompt_for scenario sel) = None ->
           session_state (snd (run env lang bytes_data sel w))
           = <["caption" := PyStr (translated env scenario (SUPPORTED_LANGUAGES lang))]>
               (initialized (session_state w))
           /\ files (snd (run env lang bytes_data sel w)) !! story_audio_path
              = files w !! story_audio_path)
       /\ forall story,
            story_of env (prompt_for scenario sel) = Some story ->
            session_state (snd (run env lang bytes_data sel w)) !! "story_english"
            = Some (PyStr story)
            /\ session_state (snd (run env lang bytes_data sel w)) !! "story_translated"
               = Some (PyStr (translated env story (SUPPORTED_LANGUAGES lang)))
            /\ (forall e,
                  gtts_save env (translated env story (SUPPORTED_LANGUAGES lang))
                    (SUPPORTED_LANGUAGES lang) = Raise e ->
                  session_state (snd (run env lang bytes_data sel w)) !! "audio_file_path"
                  = initialized (session_state w) !! "audio_file_path"
                  /\ files (snd (run env lang bytes_data sel w)) !! story_audio_path
                     = match gtts_partial env
                               (translated env story (SUPPORTED_LANGUAGES lang))
                               (SUPPORTED_LANGUAGES lang) with
                       | Some partial => Some partial
                       | None => files w !! story_audio_path
                       end)
            /\ forall audio,
                 gtts_save env (translated env story (SUPPORTED_LANGUAGES lang))
                   (SUPPORTED_LANGUAGES lang) = Ok audio ->
                 session_state (snd (run env lang bytes_data sel w)) !! "audio_file_path"
                 = Some (PyStr story_audio_path)
                 /\ results (snd (run env lang bytes_data sel w))
                    = (Some bytes_data, Some audio,
                       Some (PyStr (translated env scenario (SUPPORTED_LANGUAGES lang))),
                       Some (PyStr story),
                       Some (PyStr (translated env story (SUPPORTED_LANGUAGES lang)))).
Proof.
  unfold results. rewrite run_session, run_files.
  destruct (pipeline_cases env (SUPPORTED_LANGUAGES lang) sel (staged bytes_data w))
    as [evs [[Hc ->] | [(sc & Hc & Hs & ->) | [(sc & st & e & Hc & Hs & Ha & ->)
                                              | (sc & st & a & Hc & Hs & Ha & ->)]]]];
    rewrite staged_image in Hc; unfold log, store, staged;
    cbn [snd session_state files].
  - split; [apply lookup_insert_eq|]. split.
    + intros _. split; [done|]. by rewrite lookup_insert_ne.
    + intros scenario Hc'. congruence.
  - split; [apply lookup_insert_eq|]. split; [intros Hc'; congruence|].
    intros scenario Hc'. assert (sc = scenario) as -> by congruence.
    split; [apply lookup_insert_eq|]. split.
    + intros _. split; [done|]. by rewrite lookup_insert_ne.
    + intros story Hs'. congruence.
  - assert (Hfile : forall path : string,
               path <> story_audio_path ->
               left_by_failed_save env (translated env st (SUPPORTED_LANGUAGES lang))
                 (SUPPORTED_LANGUAGES lang) (<[uploaded_image_path := bytes_data]> (files w))
               !! path
               = <[uploaded_image_path := bytes_data]> (files w) !! path).
    { intros path Hpath. unfold left_by_failed_save.
      destruct (gtts_partial _ _ _); [by rewrite lookup_insert_ne | done]. }
    split; [rewrite Hfile by done; apply lookup_insert_eq|].
    split; [intros Hc'; congruence|].
    intros scenario Hc'. assert (sc = scenario) as -> by congruence.
    split; [by rewrite !lookup_insert_ne, lookup_insert_eq by done|].
    split; [intros Hs'; congruence|].
    intros story Hs'. assert (st = story) as -> by congruence.
    split; [by rewrite !lookup_insert_ne, lookup_insert_eq by done|].
    split; [by rewrite lookup_insert_ne, lookup_insert_eq by done|].
    split; [|intros audio Ha'; congruence].
    intros e' _. split; [by rewrite !lookup_insert_ne by done|].
    unfold left_by_failed_save.
    destruct (gtts_partial _ _ _); [apply lookup_insert_eq | by rewrite lookup_insert_ne].
  - split; [rewrite lookup_insert_ne by done; apply lookup_insert_eq|].
    split; [intros Hc'; congruence|].
    intros scenario Hc'. assert (sc = scenario) as -> by congruence.
    split; [by rewrite !lookup_insert_ne, lookup_insert_eq by done|].
    split; [intros Hs'; congruence|].
    intros story Hs'. assert (st = story) as -> by congruence.
    split; [by rewrite !lookup_insert_ne, lookup_insert_eq by done|].
    split; [by rewrite !lookup_insert_ne, lookup_insert_eq by done|].
    split; [intros e Ha'; congruence|].
    intros audio Ha'. assert (a = audio) as -> by congruence.
    split; [by rewrite lookup_insert_ne, lookup_insert_eq by done|].
    rewrite (lookup_insert_ne _ story_audio_path uploaded_image_path) by done.
    rewrite !lookup_insert_eq.
    by repeat first [rewrite lookup_insert_eq | rewrite lookup_insert_ne by done].
Qed.

Lemma run_overwrites_witness :
  results (snd (run sample_env Hindi "IMG2" sample_sel after_first_run))
  = (Some "IMG2",
     Some "mp3 of [hi] Once upon a time, a dog found the sea.",
     Some (PyStr "[hi] a picture of IMG2"),
     Some (PyStr "Once upon a time, a dog found the sea."),
     Some (PyStr "[hi] Once upon a time, a dog found the sea."))
  /\ files (snd (run env_no_speech Hindi "IMG2" sample_sel after_first_run))
       !! story_audio_path = Some EmptyString
  /\ session_state (snd (run env_no_caption Hindi "IMG2" sample_sel after_first_run))
     = initialized (session_state after_first_run).
Proof.
  split; [|split].
  - destruct (run_overwrites sample_env Hindi "IMG2" sample_sel after_first_run)
      as (_ & _ & Hcaption).
    destruct (Hcaption "a picture of IMG2") as (_ & _ & Hstory); [reflexivity|].
    destruct (Hstory "Once upon a time, a dog found the sea.") as (_ & _ & _ & Haudio);
      [reflexivity|].
    destruct (Haudio "mp3 of [hi] Once upon a time, a dog found the sea.") as [_ Hres];
      [reflexivity|].
    exact Hres.
  - destruct (run_overwrites env_no_speech Hindi "IMG2" sample_sel after_first_run)
      as (_ & _ & Hcaption).
    destruct (Hcaption "a picture of IMG2") as (_ & _ & Hstory); [reflexivity|].
    destruct (Hstory "A cat slept.") as (_ & _ & Hfailed & _); [reflexivity|].
    destruct (Hfailed "Failed to connect") as [_ Hfile]; [reflexivity|].
    exact Hfile.
  - destruct (run_overwrites env_no_caption Hindi "IMG2" sample_sel after_first_run)
      as (_ & Hnone & _).
    destruct Hnone as [Hsession _]; [reflexivity|].
    exact Hsession.
Defined.

(** C2 as stated fails: when captioning fails in the second run, the new
    image is on disk next to the caption, story and audio of the first
    run, which a run in a new session would not have left. *)
Lemma failed_run_keeps_previous_results :
  results after_failed_caption
  <> results (snd (run env_no_caption Hindi "IMG2" sample_sel fresh))
  /\ results after_failed_caption
     = (Some "IMG2",
        Some "mp3 of [hi] Once upon a time, a dog found the sea.",
        Some (PyStr "[hi] a picture of IMG1"),
        Some (PyStr "Once upon a time, a dog found the sea."),
        Some (PyStr "[hi] Once upon a time, a dog found the sea.")).
Proof. split; [by vm_compute | by vm_compute]. Qed.

(** ** Speech synthesis *)

Lemma run_events (env : backends) (lang : language) (bytes_data : string)
    (sel : selections) (w : world) (r : outcome unit) (evs : list event) :
  display_results
    (snd (pipeline env (SUPPORTED_LANGUAGES lang) (get_user_preferences sel)
            (staged bytes_data w)))
  = (r, log (snd (pipeline env (SUPPORTED_LANGUAGES lang) (get_user_preferences sel)
                    (staged bytes_data w))) evs) ->
  shows_audio (events_of (run env lang bytes_data sel) w) = shows_audio evs.
Proof.
  intros Hd. unfold events_of. rewrite run_eq, Hd.
  destruct (pipeline_appends env (SUPPORTED_LANGUAGES lang) (get_user_preferences sel)
              (staged bytes_data w)) as (pevs & Ht & Hp).
  unfold log. cbn [snd trace]. rewrite Ht. unfold staged. cbn [trace].
  rewrite <- !app_assoc, drop_app_length, !shows_audio_app.
  by rewrite (shows_audio_none pevs Hp).
Qed.

(** C4, as the code has it.  When speech synthesis fails, [create_audio]
    returns [False] and all it adds to the trace is the call and the error
    report; the run leaves the audio path as it was; if no path was set
    before the run, none is set after it and the player is not shown. *)
Theorem failed_synthesis_keeps_audio_path (env : backends) (lang : language)
    (bytes_data : string) (sel : selections) (scenario story e : string) (w w0 : world) :
  scenario_of env (Some bytes_data) = Some scenario ->
  story_of env (prompt_for scenario sel) = Some story ->
  gtts_save env (translated env story (SUPPORTED_LANGUAGES lang)) (SUPPORTED_LANGUAGES lang)
  = Raise e ->
  fst (create_audio env (translated env story (SUPPORTED_LANGUAGES lang))
         (SUPPORTED_LANGUAGES lang) w0) = Ok false
  /\ events_of (create_audio env (translated env story (SUPPORTED_LANGUAGES lang))
                  (SUPPORTED_LANGUAGES lang)) w0
     = [call_gtts (translated env story (SUPPORTED_LANGUAGES lang))
          (SUPPORTED_LANGUAGES lang);
        st_error ("Error in audio generation: " ++ e)]
  /\ session_state (snd (run env lang bytes_data sel w)) !! "audio_file_path"
     = Some (default PyNone (session_state w !! "audio_file_path"))
  /\ (truthy (default PyNone (session_state w !! "audio_file_path")) = false ->
      shows_audio (events_of (run env lang bytes_data sel) w) = false).
Proof.
  intros Hc Hs Ha.
  rewrite <- (staged_image bytes_data w) in Hc.
  destruct (pipeline_no_audio env (SUPPORTED_LANGUAGES lang) sel (staged bytes_data w)
              scenario story e Hc Hs Ha) as [pevs Hp].
  assert (Hpath : session_state
                    (snd (pipeline env (SUPPORTED_LANGUAGES lang) (get_user_preferences sel)
                            (staged bytes_data w))) !! "audio_file_path"
                  = Some (default PyNone (session_state w !! "audio_file_path"))).
  { rewrite Hp. unfold staged. cbn [snd session_state].
    rewrite !lookup_insert_ne by done. apply initialized_audio_file_path. }
  split; [|split; [|split]].
  - by rewrite create_audio_eq, Ha.
  - unfold events_of. rewrite create_audio_eq, Ha. cbn [snd trace].
    by rewrite drop_app_length.
  - by rewrite run_session.
  - intros Hunset.
    destruct (display_results_no_player _ _ Hpath Hunset) as (r & evs & Hd & Hevs).
    by rewrite (run_events env lang bytes_data sel w r evs Hd).
Qed.

Lemma failed_synthesis_keeps_audio_path_witness :
  fst (create_audio env_no_speech "[hi] A cat slept." "hi" fresh) = Ok false
  /\ events_of (create_audio env_no_speech "[hi] A cat slept." "hi") fresh
     = [call_gtts "[hi] A cat slept." "hi";
        st_error "Error in audio generation: Failed to connect"]
  /\ session_state (snd (run env_no_speech Hindi "IMG2" sample_sel fresh))
       !! "audio_file_path" = Some PyNone
  /\ shows_audio (events_of (run env_no_speech Hindi "IMG2" sample_sel) fresh) = false.
Proof.
  destruct (failed_synthesis_keeps_audio_path env_no_speech Hindi "IMG2" sample_sel
              "a picture of IMG2" "A cat slept." "Failed to connect" fresh fresh)
    as (Hfalse & Hevents & Hpath & Hplayer); [reflexivity | reflexivity | reflexivity |].
  split; [exact Hfalse | split; [exact Hevents | split; [exact Hpath |]]].
  apply Hplayer. reflexivity.
Defined.

(** C4 as stated fails: in a second run whose speech synthesis fails, the
    audio path set by the first run is still there afterwards and the
    player is shown under the second story. *)
Lemma failed_synthesis_leaves_stale_audio :
  ~ (gtts_save env_no_speech (translated env_no_speech "A cat slept." "hi") "hi"
     = Raise "Failed to connect" ->
     session_state after_failed_speech !! "audio_file_path" = Some PyNone
     /\ shows_audio (events_of (run env_no_speech Hindi "IMG2" sample_sel) after_first_run)
        = false)
  /\ session_state after_failed_speech !! "audio_file_path"
     = Some (PyStr "story_audio.mp3")
  /\ session_state after_failed_speech !! "story_translated"
     = Some (PyStr "[hi] A cat slept.")
  /\ shows_audio (events_of (run env_no_speech Hindi "IMG2" sample_sel) after_first_run)
     = true.
Proof.
  split; [|by vm_compute].
  intros Hclaim. destruct Hclaim as [Hpath _]; [reflexivity|].
  vm_compute in Hpath. discriminate Hpath.
Qed.

(** ** The prompt *)

Lemma prefix_app (v b : string) : String.prefix v (v ++ b) = true.
Proof.
  induction v as [|c v IH]; simpl.
  - by destruct b.
  - by destruct (Ascii.ascii_dec c c).
Qed.

Lemma occurs_unfold (needle hay : string) :
  occurs needle hay
  = String.prefix needle hay
    || match hay with
       | EmptyString => false
       | String _ rest => occurs needle rest
       end.
Proof. by destruct hay. Qed.

Lemma occurs_here (v b : string) : occurs v (v ++ b) = true.
Proof. by rewrite occurs_unfold, prefix_app. Qed.

Lemma occurs_later (v a t : string) : occurs v t = true -> occurs v (a ++ t) = true.
Proof.
  intros Ht. induction a as [|c a IH]; [done|].
  simpl. rewrite IH. apply orb_true_r.
Qed.

Ltac occurs_tac := repeat first [apply occurs_here | apply occurs_later].

(** The caption and eight of the selections are substituted into the
    template, whatever they are. *)
Lemma prompt_embeds_eight (scenario : string) (sel : selections) :
  Forall (fun v => occurs v (prompt_for scenario sel) = true)
    [scenario; genre sel; setting sel; region sel; tone sel; theme sel;
     conflict sel; twist sel; ending sel].
Proof.
  unfold prompt_for, prompt_template.
  repeat (apply Forall_cons; split; [by occurs_tac|]). by apply Forall_nil.
Qed.

(** C3 fails on the code: the [plot] selection is collected with the other
    eight but the template has no field for it.  For the scenario of the
    specification the prompt [main] builds does not contain the plot
    "Friendship and loyalty". *)
Theorem plot_not_in_prompt :
  offered sample_sel = true
  /\ plot sample_sel = "Friendship and loyalty"
  /\ exists prompt,
       build_prompt sample_caption (get_user_preferences sample_sel) fresh
       = (Ok prompt, fresh)
       /\ occurs (plot sample_sel) prompt = false.
Proof.
  split; [by vm_compute|]. split; [done|].
  exists (prompt_for sample_caption sample_sel). split; [apply build_prompt_eq|].
  by vm_compute.
Qed.

Lemma preference_keys_distinct (sel : selections) : NoDup (preference_items sel).*1.
Proof. simpl. apply (bool_decide_unpack _). by vm_compute. Qed.

(** C8.  The prompt is a function of the caption and the selections alone:
    built in any two worlds, from the preference dictionary filled in any
    two orders, it is the same string. *)
Theorem prompt_deterministic (scenario : string) (sel : selections)
    (items1 items2 : list (string * string)) (w1 w2 : world) :
  items1 ≡ₚ preference_items sel ->
  items2 ≡ₚ preference_items sel ->
  exists prompt,
    build_prompt scenario (list_to_map items1) w1 = (Ok prompt, w1)
    /\ build_prompt scenario (list_to_map items2) w2 = (Ok prompt, w2).
Proof.
  intros H1 H2. exists (prompt_for scenario sel).
  assert (Hmap : forall items, items ≡ₚ preference_items sel ->
                   (list_to_map items : gmap string string) = get_user_preferences sel).
  { intros items Hitems. symmetry. apply list_to_map_proper; [|done].
    apply preference_keys_distinct. }
  rewrite (Hmap items1 H1), (Hmap items2 H2). split; apply build_prompt_eq.
Qed.

Lemma prompt_deterministic_witness :
  exists prompt,
    build_prompt sample_caption (list_to_map (preference_items sample_sel)) fresh
    = (Ok prompt, fresh)
    /\ build_prompt sample_caption (list_to_map (reordered_items sample_sel))
         after_first_run
       = (Ok prompt, after_first_run).
Proof.
  apply (prompt_deterministic sample_caption sample_sel
           (preference_items sample_sel) (reordered_items sample_sel)
           fresh after_first_run).
  - reflexivity.
  - exact (reverse_Permutation (preference_items sample_sel)).
Defined.

(** * Further properties of the script *)

(** ** The wrappers *)

(** None of the four wrappers lets an exception out, whatever the service
    behind it does.  [img2txt], [txt2story] and [translate_text] leave the
    session and the disk as they are; [create_audio] leaves the session as
    it is and touches no file but the fixed audio path. *)
Theorem wrappers_never_raise (env : backends) (w : world) :
  (forall url, exists r evs, img2txt env url w = (Ok r, log w evs))
  /\ (forall prompt, exists r evs, txt2story env prompt w = (Ok r, log w evs))
  /\ (forall text lang, exists r evs, translate_text env text lang w = (Ok r, log w evs))
  /\ (forall text lang, exists r w',
        create_audio env text lang w = (Ok r, w')
        /\ session_state w' = session_state w
        /\ forall path, path <> story_audio_path -> files w' !! path = files w !! path).
Proof.
  split; [|split; [|split]].
  - intros url. rewrite img2txt_eq.
    destruct (captioning_model env (files w !! url)); eauto.
  - intros prompt. rewrite txt2story_eq. destruct (generated env prompt); eauto.
  - intros text lang. rewrite translate_text_run. eauto.
  - intros text lang. rewrite create_audio_eq.
    destruct (gtts_save env text lang) as [audio|e].
    + do 2 eexists. split; [reflexivity|]. cbn [session_state files].
      split; [done|]. intros path Hpath. by rewrite lookup_insert_ne.
    + do 2 eexists. split; [reflexivity|]. cbn [session_state files].
      split; [done|]. intros path Hpath. unfold left_by_failed_save.
      destruct (gtts_partial env text lang); [by rewrite lookup_insert_ne | done].
Qed.

Lemma append_assoc (a b c : string) : (a ++ b) ++ c = a ++ b ++ c.
Proof.
  induction a as [|x a IH]; [done|].
  change (String x ((a ++ b) ++ c) = String x (a ++ b ++ c)). by rewrite IH.
Qed.

Lemma append_empty_r (a : string) : a ++ EmptyString = a.
Proof.
  induction a as [|x a IH]; [done|].
  change (String x (a ++ EmptyString) = String x a). by rewrite IH.
Qed.

Lemma consume_fragments (frags : list string) (rest : stream) (story : string) :
  consume (fragments frags rest) story = consume rest (story ++ joined frags).
Proof.
  revert story. induction frags as [|f frags IH]; intros story.
  - simpl. by rewrite append_empty_r.
  - change (joined (f :: frags)) with (f ++ joined frags).
    cbn [fragments consume]. by rewrite IH, append_assoc.
Qed.

(** [txt2story] returns the streamed fragments joined in the order they
    arrive, also when that is the empty string. *)
Theorem txt2story_joins_fragments (env : backends) (prompt : string)
    (frags : list string) (w : world) :
  completions_create env (story_prompt_prefix ++ prompt) = Ok (fragments frags stream_end) ->
  txt2story env prompt w
  = (Ok (Some (joined frags)), log w [call_completions (story_prompt_prefix ++ prompt)]).
Proof.
  intros Hstream. rewrite txt2story_eq. unfold generated.
  by rewrite Hstream, consume_fragments.
Qed.

Lemma txt2story_joins_fragments_witness :
  txt2story (Backends (captioning_model sample_env)
                      (fun _ => Ok (fragments sample_fragments stream_end))
                      (translator_translate sample_env) (gtts_save sample_env)
                     (gtts_partial sample_env))
    "a dog" fresh
  = (Ok (Some "Once upon a time."),
     log fresh [call_completions (story_prompt_prefix ++ "a dog")]).
Proof.
  apply (txt2story_joins_fragments
           (Backends (captioning_model sample_env)
                     (fun _ => Ok (fragments sample_fragments stream_end))
                     (translator_translate sample_env) (gtts_save sample_env)
                     (gtts_partial sample_env))
           "a dog" sample_fragments fresh).
  reflexivity.
Defined.

(** A response that breaks off -- the stream raises, or a chunk carries no
    content -- yields no story at all: the fragments received so far are
    dropped and the error is reported. *)
Theorem txt2story_drops_partial_story (env : backends) (prompt : string)
    (frags : list string) (broken : stream) (w : world) :
  completions_create env (story_prompt_prefix ++ prompt) = Ok (fragments frags broken) ->
  (forall e, broken = stream_raise e ->
     txt2story env prompt w
     = (Ok None, log w [call_completions (story_prompt_prefix ++ prompt);
                        st_error ("Error in story generation: " ++ e)]))
  /\ (forall rest, broken = stream_chunk None rest ->
       txt2story env prompt w
       = (Ok None, log w [call_completions (story_prompt_prefix ++ prompt);
                          st_error ("Error in story generation: " ++ concat_type_error)])).
Proof.
  intros Hstream. split.
  - intros e ->. rewrite txt2story_eq. unfold generated.
    by rewrite Hstream, consume_fragments.
  - intros rest ->. rewrite txt2story_eq. unfold generated.
    by rewrite Hstream, consume_fragments.
Qed.

Lemma txt2story_drops_partial_story_witness :
  txt2story (Backends (captioning_model sample_env)
                      (fun _ => Ok (fragments sample_fragments (stream_raise "connection reset")))
                      (translator_translate sample_env) (gtts_save sample_env)
                     (gtts_partial sample_env))
    "a dog" fresh
  = (Ok None, log fresh [call_completions (story_prompt_prefix ++ "a dog");
                         st_error "Error in story generation: connection reset"]).
Proof.
  apply (txt2story_drops_partial_story
           (Backends (captioning_model sample_env)
                     (fun _ => Ok (fragments sample_fragments (stream_raise "connection reset")))
                     (translator_translate sample_env) (gtts_save sample_env)
                     (gtts_partial sample_env))
           "a dog" sample_fragments (stream_raise "connection reset") fresh).
  - reflexivity.
  - reflexivity.
Defined.

(** ** The display block *)

Lemma display_results_eq (w : world) (complete caption story path : pyval) :
  session_state w !! "processing_complete" = Some complete ->
  session_state w !! "caption" = Some caption ->
  session_state w !! "story_translated" = Some story ->
  session_state w !! "audio_file_path" = Some path ->
  display_results w = (Ok tt, log w (rendered complete caption story path (files w))).
Proof.
  intros Hcomplete Hcaption Hstory Hpath. unfold display_results, rendered.
  rewrite bind_unfold. unfold session_get at 1. rewrite Hcomplete.
  destruct (truthy complete); [|by rewrite ret_eq, log_nil].
  rewrite bind_unfold. unfold session_get at 1. rewrite Hcaption.
  rewrite bind_unfold.
  assert ((if truthy caption then emit (st_markdown (story_container caption)) else ret tt) w
          = (Ok tt, log w (if truthy caption then [st_markdown (story_container caption)]
                           else []))) as ->.
  { destruct (truthy caption); [done|]. by rewrite ret_eq, log_nil. }
  rewrite bind_unfold. unfold session_get at 1.
  change (session_state (log w ?evs)) with (session_state w). rewrite Hstory.
  rewrite bind_unfold.
  match goal with
  | |- context [log w ?evs] => generalize evs; intros evs1
  end.
  assert ((if truthy story then emit (st_markdown (story_container story)) else ret tt)
            (log w evs1)
          = (Ok tt, log w (evs1 ++ (if truthy story then [st_markdown (story_container story)]
                                    else [])))) as ->.
  { destruct (truthy story); cbv beta iota; [by rewrite emit_eq, log_log|].
    by rewrite ret_eq, app_nil_r. }
  rewrite bind_unfold. unfold session_get at 1.
  change (session_state (log w ?evs)) with (session_state w). rewrite Hpath.
  destruct (truthy path); cbv beta iota; [|by rewrite ret_eq, app_nil_r].
  rewrite bind_unfold. unfold path_exists at 1.
  change (files (log w ?evs)) with (files w).
  destruct (files w !! py_str path); cbv beta iota;
    [by rewrite emit_eq, log_log, <- app_assoc|].
  by rewrite ret_eq, app_nil_r.
Qed.

Lemma initialized_is_Some (s : gmap string pyval) (k : string) :
  k ∈ ["story_english"; "story_translated"; "audio_file_path"; "caption";
       "processing_complete"] ->
  is_Some (initialized s !! k).
Proof.
  rewrite !elem_of_cons, elem_of_nil.
  intros [-> | [-> | [-> | [-> | [-> | []]]]]];
    rewrite initialized_default; by destruct (s !! _).
Qed.

Lemma pipeline_keeps_fields (env : backends) (lang : string) (sel : selections)
    (w : world) (k : string) :
  is_Some (session_state w !! k) ->
  is_Some (session_state (snd (pipeline env lang (get_user_preferences sel) w)) !! k).
Proof.
  intros Hk.
  destruct (pipeline_cases env lang sel w)
    as [evs [[_ ->] | [(? & _ & _ & ->) | [(? & ? & ? & _ & _ & _ & ->)
                                          | (? & ? & ? & _ & _ & _ & ->)]]]];
    unfold log, store; cbn [snd session_state];
    rewrite ?lookup_insert_is_Some'; auto 10.
Qed.

Lemma before_display_is_Some (env : backends) (ui : widgets) (w : world) (k : string) :
  k ∈ ["story_english"; "story_translated"; "audio_file_path"; "caption";
       "processing_complete"] ->
  is_Some (session_state (before_display env ui w) !! k).
Proof.
  intros Hk. apply (initialized_is_Some (session_state w)) in Hk.
  unfold before_display. destruct (uploaded_file ui) as [bytes_data|]; [|done].
  destruct (image_display ui); [|done].
  destruct (weave_button ui); [|done]. by apply pipeline_keeps_fields.
Qed.

(** [main] is the display block run on the world the upper part leaves, and
    the display block finds its four fields there. *)
Lemma main_shape (env : backends) (ui : widgets) (w : world) :
  stopped ui = None ->
  exists complete caption story path,
    session_state (before_display env ui w) !! "processing_complete" = Some complete
    /\ session_state (before_display env ui w) !! "caption" = Some caption
    /\ session_state (before_display env ui w) !! "story_translated" = Some story
    /\ session_state (before_display env ui w) !! "audio_file_path" = Some path
    /\ main env ui w
       = (Ok tt, log (before_display env ui w)
                   (rendered complete caption story path (files (before_display env ui w)))).
Proof.
  intros Hgo.
  destruct (before_display_is_Some env ui w "processing_complete") as [complete Hcomplete];
    [set_solver|].
  destruct (before_display_is_Some env ui w "caption") as [caption Hcaption]; [set_solver|].
  destruct (before_display_is_Some env ui w "story_translated") as [story Hstory];
    [set_solver|].
  destruct (before_display_is_Some env ui w "audio_file_path") as [path Hpath];
    [set_solver|].
  exists complete, caption, story, path. repeat (split; [done|]).
  rewrite main_eq, Hgo. by apply display_results_eq.
Qed.

Lemma main_stopped (env : backends) (ui : widgets) (w : world) (e : string) :
  stopped ui = Some e -> main env ui w = (Raise e, before_display env ui w).
Proof. intros Hstop. by rewrite main_eq, Hstop. Qed.

Lemma stopped_None (ui : widgets) :
  uploaded_file ui = None \/ image_display ui = Ok tt -> stopped ui = None.
Proof.
  unfold stopped. intros [-> | ->]; [done|]. by destruct (uploaded_file ui).
Qed.

(** ** When the script fails *)


(** ** What an execution does and does not touch *)

Lemma pipeline_appends_calls (env : backends) (lang : string) (prefs : gmap string string) :
  appends (fun ev => is_call ev || is_message ev = true) (pipeline env lang prefs).
Proof.
  unfold pipeline, img2txt, translate_text, build_prompt, dict_getitem, txt2story,
    txt2story_body, create_audio.
  repeat appends_step.
Qed.

Lemma pipeline_files (env : backends) (lang : string) (sel : selections) (w : world) :
  files (snd (pipeline env lang (get_user_preferences sel) w)) = files w
  \/ exists audio,
       files (snd (pipeline env lang (get_user_preferences sel) w))
       = <[story_audio_path := audio]> (files w).
Proof.
  destruct (pipeline_cases env lang sel w)
    as [evs [[_ ->] | [(? & _ & _ & ->) | [(? & ? & ? & _ & _ & _ & ->)
                                          | (? & ? & audio & _ & _ & _ & ->)]]]];
    cbn [snd files]; eauto.
  unfold left_by_failed_save. destruct (gtts_partial _ _ _); eauto.
Qed.

Lemma main_files (env : backends) (ui : widgets) (w : world) :
  files (snd (main env ui w)) = files (before_display env ui w).
Proof. rewrite main_eq. destruct (stopped ui); [done | apply display_results_files]. Qed.

(** An execution writes no file but [uploaded_image.jpg] and
    [story_audio.mp3].  The upload is written on every execution that has
    one, whether or not the button was pressed; without an upload the disk
    is left as it is. *)
Theorem main_writes_two_paths (env : backends) (ui : widgets) (w : world) :
  (forall path, path <> uploaded_image_path -> path <> story_audio_path ->
     files (snd (main env ui w)) !! path = files w !! path)
  /\ (forall bytes_data, uploaded_file ui = Some bytes_data ->
        files (snd (main env ui w)) !! uploaded_image_path = Some bytes_data)
  /\ (uploaded_file ui = None -> files (snd (main env ui w)) = files w).
Proof.
  rewrite main_files. unfold before_display.
  destruct (uploaded_file ui) as [bytes_data|]; [|by repeat split].
  split; [|split; [|done]].
  - intros path Himage Haudio.
    assert (Hstaged : files (staged bytes_data w) !! path = files w !! path).
    { unfold staged. cbn [files]. by rewrite lookup_insert_ne. }
    destruct (image_display ui); [|cbn [files]; by rewrite lookup_insert_ne].
    destruct (weave_button ui); [|done].
    destruct (pipeline_files env (SUPPORTED_LANGUAGES (selected_language ui)) (chosen ui)
                (staged bytes_data w)) as [-> | [audio ->]]; [done|].
    by rewrite lookup_insert_ne.
  - intros ? [= <-].
    destruct (image_display ui); [|apply lookup_insert_eq].
    destruct (weave_button ui); [|apply staged_image].
    destruct (pipeline_files env (SUPPORTED_LANGUAGES (selected_language ui)) (chosen ui)
                (staged bytes_data w)) as [-> | [audio ->]]; [apply staged_image|].
    rewrite lookup_insert_ne by done. apply staged_image.
Qed.

Lemma main_writes_two_paths_witness :
  files (snd (main sample_env (Widgets Hindi (Some "IMG3") sample_sel false (Ok tt))
                after_first_run))
    !! uploaded_image_path = Some "IMG3".
Proof.
  apply (main_writes_two_paths sample_env
           (Widgets Hindi (Some "IMG3") sample_sel false (Ok tt)) after_first_run).
  reflexivity.
Defined.

Lemma Forall_rendering_quiet (evs : list event) :
  Forall is_rendering evs ->
  Forall (fun ev => is_call ev = false /\ is_message ev = false) evs.
Proof. intros Hevs. eapply Forall_impl; [exact Hevs|]. by intros []. Qed.

Lemma rendered_rendering (complete caption story path : pyval) (fs : gmap string string) :
  Forall is_rendering (rendered complete caption story path fs).
Proof.
  unfold rendered. destruct (truthy complete); [|done].
  repeat apply Forall_app_2.
  - by destruct (truthy caption); repeat constructor.
  - by destruct (truthy story); repeat constructor.
  - destruct (truthy path); [|done]. by destruct (fs !! py_str path); repeat constructor.
Qed.

(** Without a press of the button on an uploaded image nothing happens
    but initialisation and display: the session is the initialised one, no
    service is called and no error or warning is shown. *)
Theorem main_without_click (env : backends) (ui : widgets) (w : world) :
  uploaded_file ui = None \/ weave_button ui = false ->
  session_state (snd (main env ui w)) = initialized (session_state w)
  /\ Forall (fun ev => is_call ev = false /\ is_message ev = false)
       (events_of (main env ui) w).
Proof.
  intros Hidle. unfold events_of.
  destruct (stopped ui) as [e|] eqn:Hstop.
  { rewrite (main_stopped env ui w e Hstop). cbn [snd]. unfold stopped in Hstop.
    unfold before_display. destruct (uploaded_file ui) as [bytes_data|]; [|done].
    destruct (image_display ui); [done|]. cbn [session_state trace].
    split; [done|]. by rewrite drop_all. }
  destruct (main_shape env ui w Hstop) as (c & cap & st & p & _ & _ & _ & _ & Hmain).
  rewrite Hmain. unfold log. cbn [snd session_state trace].
  clear Hmain. unfold stopped in Hstop. unfold before_display.
  destruct (uploaded_file ui) as [bytes_data|].
  - destruct (image_display ui); [|done].
    destruct Hidle as [Hnone | ->]; [done|].
    unfold staged. cbn [session_state trace]. split; [done|].
    rewrite <- app_assoc, drop_app_length.
    apply Forall_cons. split; [done|].
    apply Forall_rendering_quiet, rendered_rendering.
  - cbn [session_state trace]. split; [done|].
    rewrite drop_app_length. apply Forall_rendering_quiet, rendered_rendering.
Qed.

Lemma main_without_click_witness :
  session_state (snd (main env_no_caption
                        (Widgets Tamil (Some "IMG3") sample_sel false (Ok tt))
                        after_first_run))
  = initialized (session_state after_first_run)
  /\ Forall (fun ev => is_call ev = false /\ is_message ev = false)
       (events_of (main env_no_caption
                           (Widgets Tamil (Some "IMG3") sample_sel false (Ok tt)))
          after_first_run).
Proof.
  apply (main_without_click env_no_caption
           (Widgets Tamil (Some "IMG3") sample_sel false (Ok tt)) after_first_run).
  right. reflexivity.
Defined.

Lemma calls_not_rendering (ev : event) :
  is_call ev || is_message ev = true -> ~ is_rendering ev.
Proof. destruct ev; simpl; intros Hev Hrendering; (discriminate Hev || exact Hrendering). Qed.

Lemma before_display_trace (env : backends) (ui : widgets) (w : world) :
  exists pre,
    trace (before_display env ui w) = (trace w ++ pre)%list
    /\ Forall (fun ev => ~ is_rendering ev) pre.
Proof.
  unfold before_display. destruct (uploaded_file ui) as [bytes_data|].
  - destruct (image_display ui);
      [|exists []; cbn [trace]; by rewrite app_nil_r].
    destruct (weave_button ui).
    + destruct (pipeline_appends_calls env (SUPPORTED_LANGUAGES (selected_language ui))
                  (get_user_preferences (chosen ui)) (staged bytes_data w))
        as (evs & -> & Hevs).
      exists (st_image bytes_data :: evs). unfold staged. cbn [trace].
      rewrite <- app_assoc. split; [done|].
      apply Forall_cons. split; [exact (fun H => H)|].
      eapply Forall_impl; [exact Hevs|]. apply calls_not_rendering.
    + exists [st_image bytes_data]. split; [done|].
      apply Forall_cons. split; [exact (fun H => H)|]. done.
  - exists []. cbn [trace]. by rewrite app_nil_r.
Qed.

Lemma shows_audio_not_rendering (evs : list event) :
  Forall (fun ev => ~ is_rendering ev) evs -> shows_audio evs = false.
Proof.
  intros Hevs. apply shows_audio_none.
  eapply Forall_impl; [exact Hevs|]. intros ev Hev.
  destruct ev; try reflexivity. destruct Hev. exact I.
Qed.

Lemma shows_audio_rendered (complete caption story path : pyval) (fs : gmap string string) :
  shows_audio (rendered complete caption story path fs)
  = truthy complete && truthy path && bool_decide (is_Some (fs !! py_str path)).
Proof.
  unfold rendered. destruct (truthy complete); [|done].
  rewrite !shows_audio_app.
  assert (shows_audio (if truthy caption then [st_markdown (story_container caption)] else [])
          = false) as -> by by destruct (truthy caption).
  assert (shows_audio (if truthy story then [st_markdown (story_container story)] else [])
          = false) as -> by by destruct (truthy story).
  destruct (truthy path); [|done].
  by destruct (fs !! py_str path).
Qed.

(** In an execution that gets past [st.image] -- no upload, or an upload
    that displays -- the audio player is rendered exactly when, at the end
    of the execution, [processing_complete] is truthy, an audio path is
    stored and a file exists at that path; and while [processing_complete]
    is falsy nothing of the results area -- caption, story, player -- is
    rendered.  In an execution that [st.image] ends, nothing is rendered at
    all, whatever the session holds. *)
Theorem player_shown_iff (env : backends) (ui : widgets) (w : world)
    (complete path : pyval) :
  session_state (snd (main env ui w)) !! "processing_complete" = Some complete ->
  session_state (snd (main env ui w)) !! "audio_file_path" = Some path ->
  (uploaded_file ui = None \/ image_display ui = Ok tt ->
   shows_audio (events_of (main env ui) w)
   = truthy complete && truthy path
     && bool_decide (is_Some (files (snd (main env ui w)) !! py_str path))
   /\ (truthy complete = false ->
       Forall (fun ev => ~ is_rendering ev) (events_of (main env ui) w)))
  /\ (forall bytes_data e,
        uploaded_file ui = Some bytes_data -> image_display ui = Raise e ->
        events_of (main env ui) w = []).
Proof.
  rewrite main_session, main_files. intros Hcomplete Hpath. split.
  - intros Hgo%stopped_None.
    destruct (main_shape env ui w Hgo) as (c & cap & st & p & Hc & _ & _ & Hp & Hmain).
    assert (c = complete) as -> by congruence.
    assert (p = path) as -> by congruence.
    destruct (before_display_trace env ui w) as (pre & Hpre & Hquiet).
    unfold events_of. rewrite Hmain. unfold log. cbn [snd trace].
    rewrite Hpre, <- app_assoc, drop_app_length. split.
    + by rewrite shows_audio_app, (shows_audio_not_rendering pre Hquiet),
        shows_audio_rendered.
    + intros Hfalse. unfold rendered. rewrite Hfalse. by rewrite app_nil_r.
  - intros bytes_data e Hupload Himage.
    assert (Hstop : stopped ui = Some e) by (unfold stopped; by rewrite Hupload, Himage).
    unfold events_of. rewrite (main_stopped env ui w e Hstop). cbn [snd].
    unfold before_display. rewrite Hupload, Himage. cbn [trace]. apply drop_all.
Qed.

Lemma player_shown_iff_witness :
  shows_audio (events_of (main env_no_caption
                            (Widgets Hindi (Some "IMG2") sample_sel true (Ok tt)))
                 after_first_run)
  = true
  /\ events_of (main sample_env
                  (Widgets Hindi (Some "not an image") sample_sel false
                     (Raise "cannot identify image file")))
       after_first_run
     = [].
Proof.
  split.
  - destruct (player_shown_iff env_no_caption
                (Widgets Hindi (Some "IMG2") sample_sel true (Ok tt))
                after_first_run (PyBool true) (PyStr story_audio_path))
      as [Hshown _].
    + vm_compute. reflexivity.
    + vm_compute. reflexivity.
    + destruct Hshown as [Hshown _]; [right; reflexivity|].
      rewrite Hshown. vm_compute. reflexivity.
  - destruct (player_shown_iff sample_env
                (Widgets Hindi (Some "not an image") sample_sel false
                   (Raise "cannot identify image file"))
                after_first_run (PyBool true) (PyStr story_audio_path))
      as [_ Hnothing].
    + vm_compute. reflexivity.
    + vm_compute. reflexivity.
    + apply (Hnothing "not an image" "cannot identify image file"); reflexivity.
Defined.

(** ** Initialisation *)

(** After [initialize_session_state] the five fields exist; a field that
    was missing holds [None], or [False] for [processing_complete]; no
    other key is added or changed and disk and trace are untouched; and
    running it again changes nothing. *)
Theorem initialize_session_state_complete (w : world) :
  (forall k, k ∈ ["story_english"; "story_translated"; "audio_file_path"; "caption";
                  "processing_complete"] ->
     session_state (snd (initialize_session_state w)) !! k
     = Some (default (if decide (k = "processing_complete") then PyBool false else PyNone)
               (session_state w !! k)))
  /\ (forall k, k ∉ ["story_english"; "story_translated"; "audio_file_path"; "caption";
                     "processing_complete"] ->
       session_state (snd (initialize_session_state w)) !! k = session_state w !! k)
  /\ files (snd (initialize_session_state w)) = files w
  /\ trace (snd (initialize_session_state w)) = trace w
  /\ initialize_session_state (snd (initialize_session_state w))
     = (Ok tt, snd (initialize_session_state w)).
Proof.
  rewrite !initialize_session_state_eq. cbn [snd session_state files trace].
  split; [|split; [|split; [done|split; [done|]]]].
  - intros k. rewrite !elem_of_cons, elem_of_nil.
    intros [-> | [-> | [-> | [-> | [-> | []]]]]];
      rewrite initialized_default; by destruct (session_state w !! _).
  - intros k. rewrite !not_elem_of_cons. intros (? & ? & ? & ? & ? & _).
    rewrite initialized_default. destruct (session_state w !! k); [done|].
    repeat case_decide; done.
  - by rewrite initialized_idem.
Qed.

Lemma initialize_session_state_complete_witness :
  session_state (snd (initialize_session_state after_failed_caption)) !! "caption"
  = Some (PyStr "[hi] a picture of IMG1")
  /\ session_state (snd (initialize_session_state fresh)) !! "processing_complete"
     = Some (PyBool false)
  /\ session_state (snd (initialize_session_state fresh)) !! "uploaded" = None.
Proof.
  split; [|split].
  - rewrite (proj1 (initialize_session_state_complete after_failed_caption) "caption").
    + vm_compute. reflexivity.
    + rewrite !elem_of_cons. tauto.
  - rewrite (proj1 (initialize_session_state_complete fresh) "processing_complete").
    + reflexivity.
    + rewrite !elem_of_cons. tauto.
  - rewrite (proj1 (proj2 (initialize_session_state_complete fresh)) "uploaded").
    + reflexivity.
    + rewrite !not_elem_of_cons. repeat split; try discriminate. apply not_elem_of_nil.
Defined.

(** ** Runs *)

Lemma run_shape (env : backends) (lang : language) (bytes_data : string)
    (sel : selections) (w w' : world) (complete caption story path : pyval) :
  pipeline env (SUPPORTED_LANGUAGES lang) (get_user_preferences sel) (staged bytes_data w)
  = (Ok tt, w') ->
  session_state w' !! "processing_complete" = Some complete ->
  session_state w' !! "caption" = Some caption ->
  session_state w' !! "story_translated" = Some story ->
  session_state w' !! "audio_file_path" = Some path ->
  run env lang bytes_data sel w
  = (Ok tt, log w' (rendered complete caption story path (files w'))).
Proof.
  intros Hp Hcomplete Hcaption Hstory Hpath. rewrite run_eq, Hp.
  by apply display_results_eq.
Qed.

Lemma pipeline_full_events (env : backends) (lang : string) (sel : selections) (w : world)
    (scenario story audio : string) :
  scenario_of env (files w !! uploaded_image_path) = Some scenario ->
  story_of env (prompt_for scenario sel) = Some story ->
  gtts_save env (translated env story lang) lang = Ok audio ->
  pipeline env lang (get_user_preferences sel) w
  = (Ok tt,
     World
       (<["processing_complete" := PyBool true]>
          (<["audio_file_path" := PyStr story_audio_path]>
             (<["story_translated" := PyStr (translated env story lang)]>
                (<["story_english" := PyStr story]>
                   (<["caption" := PyStr (translated env scenario lang)]>
                      (session_state w))))))
       (<[story_audio_path := audio]> (files w))
       (trace w
        ++ [call_captioner uploaded_image_path]
        ++ translation_events env scenario lang
        ++ [call_completions (story_prompt_prefix ++ prompt_for scenario sel)]
        ++ translation_events env story lang
        ++ [call_gtts (translated env story lang) lang])).
Proof.
  intros [Hc Ht]%scenario_of_Some [Hg Hs]%story_of_Some Ha. unfold pipeline.
  rewrite bind_unfold, img2txt_eq, Hc, Ht.
  rewrite bind_unfold, translate_text_run, log_log.
  rewrite bind_unfold, session_set_eq, store_log.
  rewrite bind_unfold, build_prompt_eq, bind_unfold, txt2story_eq, Hg, Hs, log_log.
  rewrite bind_unfold, session_set_eq, store_log.
  rewrite bind_unfold, translate_text_run, log_log.
  rewrite bind_unfold, session_set_eq, store_log.
  rewrite bind_unfold, create_audio_eq, Ha.
  rewrite bind_unfold, session_set_eq, session_set_eq.
  unfold store, log. cbn [session_state files trace].
  by rewrite <- !app_assoc.
Qed.

(** A run in which captioning, generation and speech synthesis succeed
    calls the services in the order captioner, translator (caption),
    generator, translator (story), synthesizer -- the translator only for a
    language other than English -- and ends with [processing_complete] true
    and the audio player rendered. *)
Theorem complete_run_order (env : backends) (lang : language) (bytes_data : string)
    (sel : selections) (scenario story audio : string) (w : world) :
  scenario_of env (Some bytes_data) = Some scenario ->
  story_of env (prompt_for scenario sel) = Some story ->
  gtts_save env (translated env story (SUPPORTED_LANGUAGES lang)) (SUPPORTED_LANGUAGES lang)
  = Ok audio ->
  session_state (snd (run env lang bytes_data sel w)) !! "processing_complete"
  = Some (PyBool true)
  /\ exists shown,
       events_of (run env lang bytes_data sel) w
       = ([st_image bytes_data; call_captioner uploaded_image_path]
          ++ translation_events env scenario (SUPPORTED_LANGUAGES lang)
          ++ [call_completions (story_prompt_prefix ++ prompt_for scenario sel)]
          ++ translation_events env story (SUPPORTED_LANGUAGES lang)
          ++ [call_gtts (translated env story (SUPPORTED_LANGUAGES lang))
                (SUPPORTED_LANGUAGES lang)]
          ++ shown)%list
       /\ Forall is_rendering shown
       /\ shows_audio shown = true.
Proof.
  intros Hc Hs Ha. rewrite <- (staged_image bytes_data w) in Hc.
  pose proof (pipeline_full_events env (SUPPORTED_LANGUAGES lang) sel (staged bytes_data w)
                scenario story audio Hc Hs Ha) as Hp.
  unfold events_of.
  erewrite (run_shape env lang bytes_data sel w _ (PyBool true) _ _
              (PyStr story_audio_path) Hp);
    cbn [session_state];
    [| by rewrite ?lookup_insert_eq, ?lookup_insert_ne, ?lookup_insert_eq by done..].
  unfold log, staged. cbn [snd session_state files trace].
  split; [by rewrite lookup_insert_eq|].
  eexists. split; [|split].
  - rewrite <- !app_assoc. rewrite drop_app_length. reflexivity.
  - apply rendered_rendering.
  - rewrite shows_audio_rendered. cbn [py_str]. by rewrite lookup_insert_eq.
Qed.

Lemma complete_run_order_witness :
  session_state (snd (run sample_env Hindi "IMG1" sample_sel fresh)) !! "processing_complete"
  = Some (PyBool true)
  /\ exists shown,
       events_of (run sample_env Hindi "IMG1" sample_sel) fresh
       = ([st_image "IMG1"; call_captioner uploaded_image_path]
          ++ translation_events sample_env "a picture of IMG1" "hi"
          ++ [call_completions
                (story_prompt_prefix ++ prompt_for "a picture of IMG1" sample_sel)]
          ++ translation_events sample_env "Once upon a time, a dog found the sea." "hi"
          ++ [call_gtts "[hi] Once upon a time, a dog found the sea." "hi"]
          ++ shown)%list
       /\ Forall is_rendering shown
       /\ shows_audio shown = true.
Proof.
  apply (complete_run_order sample_env Hindi "IMG1" sample_sel "a picture of IMG1"
           "Once upon a time, a dog found the sea."
           "mp3 of [hi] Once upon a time, a dog found the sea." fresh).
  - reflexivity.
  - reflexivity.
  - reflexivity.
Defined.

Lemma pipeline_empty_caption (env : backends) (lang : string) (prefs : gmap string string)
    (w : world) :
  captioning_model env (files w !! uploaded_image_path) = Ok EmptyString ->
  pipeline env lang prefs w = (Ok tt, log w [call_captioner uploaded_image_path]).
Proof. intros Hc. unfold pipeline. by rewrite bind_unfold, img2txt_eq, Hc. Qed.

Lemma pipeline_empty_story (env : backends) (lang : string) (sel : selections) (w : world)
    (scenario : string) :
  scenario_of env (files w !! uploaded_image_path) = Some scenario ->
  generated env (prompt_for scenario sel) = Ok EmptyString ->
  pipeline env lang (get_user_preferences sel) w
  = (Ok tt,
     log (store "caption" (PyStr (translated env scenario lang)) w)
       ([call_captioner uploaded_image_path]
        ++ translation_events env scenario lang
        ++ [call_completions (story_prompt_prefix ++ prompt_for scenario sel)])).
Proof.
  intros [Hc Ht]%scenario_of_Some Hg. unfold pipeline.
  rewrite bind_unfold, img2txt_eq, Hc, Ht.
  rewrite bind_unfold, translate_text_run, log_log.
  rewrite bind_unfold, session_set_eq, store_log.
  rewrite bind_unfold, build_prompt_eq, bind_unfold, txt2story_eq, Hg.
  by rewrite log_log, <- app_assoc.
Qed.

Lemma run_events_after (env : backends) (lang : language) (bytes_data : string)
    (sel : selections) (w w' : world) (evs : list event) :
  pipeline env (SUPPORTED_LANGUAGES lang) (get_user_preferences sel) (staged bytes_data w)
  = (Ok tt, w') ->
  trace w' = (trace (staged bytes_data w) ++ evs)%list ->
  exists shown,
    events_of (run env lang bytes_data sel) w = (st_image bytes_data :: evs ++ shown)%list
    /\ Forall is_rendering shown.
Proof.
  intros Hp Htrace. unfold events_of. rewrite run_eq, Hp. cbn [snd].
  destruct (display_results_appends w') as (shown & Hshown & Hrendering).
  exists shown. split; [|done].
  rewrite Hshown, Htrace. unfold staged. cbn [trace].
  by rewrite <- !app_assoc, drop_app_length.
Qed.

(** An empty result is not treated as an error.  When the captioning model
    returns the empty string, the run stops after that call, stores nothing
    and reports nothing; when the generator's stream is empty, the run
    stops after the request, having stored only the caption, and no error
    is shown for the missing story. *)
Theorem empty_results_skip_silently (env : backends) (lang : language)
    (bytes_data : string) (sel : selections) (w : world) :
  (captioning_model env (Some bytes_data) = Ok EmptyString ->
   session_state (snd (run env lang bytes_data sel w)) = initialized (session_state w)
   /\ exists shown,
        events_of (run env lang bytes_data sel) w
        = ([st_image bytes_data; call_captioner uploaded_image_path] ++ shown)%list
        /\ Forall is_rendering shown)
  /\ (forall scenario,
        scenario_of env (Some bytes_data) = Some scenario ->
        completions_create env (story_prompt_prefix ++ prompt_for scenario sel)
        = Ok stream_end ->
        session_state (snd (run env lang bytes_data sel w))
        = <["caption" := PyStr (translated env scenario (SUPPORTED_LANGUAGES lang))]>
            (initialized (session_state w))
        /\ exists shown,
             events_of (run env lang bytes_data sel) w
             = ([st_image bytes_data; call_captioner uploaded_image_path]
                ++ translation_events env scenario (SUPPORTED_LANGUAGES lang)
                ++ [call_completions (story_prompt_prefix ++ prompt_for scenario sel)]
                ++ shown)%list
             /\ Forall is_rendering shown).
Proof.
  split.
  - intros Hc. rewrite <- (staged_image bytes_data w) in Hc.
    pose proof (pipeline_empty_caption env (SUPPORTED_LANGUAGES lang)
                  (get_user_preferences sel) (staged bytes_data w) Hc) as Hp.
    split; [by rewrite run_session, Hp|].
    by destruct (run_events_after env lang bytes_data sel w _
                   [call_captioner uploaded_image_path] Hp eq_refl) as (shown & -> & ?);
      eauto.
  - intros scenario Hc Hstream. rewrite <- (staged_image bytes_data w) in Hc.
    assert (Hg : generated env (prompt_for scenario sel) = Ok EmptyString).
    { unfold generated. by rewrite Hstream. }
    pose proof (pipeline_empty_story env (SUPPORTED_LANGUAGES lang) sel
                  (staged bytes_data w) scenario Hc Hg) as Hp.
    split; [by rewrite run_session, Hp|].
    destruct (run_events_after env lang bytes_data sel w _ _ Hp eq_refl)
      as (shown & -> & ?).
    exists shown. split; [|done]. by rewrite <- !app_assoc.
Qed.

Lemma empty_results_skip_silently_witness :
  session_state
    (snd (run (Backends (fun _ => Ok EmptyString) (completions_create sample_env)
                        (translator_translate sample_env) (gtts_save sample_env)
                     (gtts_partial sample_env))
              Hindi "IMG1" sample_sel fresh))
  = initialized ∅.
Proof.
  destruct (empty_results_skip_silently
              (Backends (fun _ => Ok EmptyString) (completions_create sample_env)
                        (translator_translate sample_env) (gtts_save sample_env)
                     (gtts_partial sample_env))
              Hindi "IMG1" sample_sel fresh) as [Hcaption _].
  destruct Hcaption as [Hsession _]; [reflexivity|].
  exact Hsession.
Defined.

(** ** English *)

Lemma appends_translate_pivot (P : event -> Prop) (env : backends) (text : string) :
  appends P (translate_text env text "en").
Proof. apply (appends_ret P text). Qed.

Lemma pipeline_pivot_appends (env : backends) (prefs : gmap string string) :
  appends (fun ev => is_translator_call ev = false) (pipeline env "en" prefs).
Proof.
  unfold pipeline, img2txt, build_prompt, dict_getitem, txt2story, txt2story_body,
    create_audio.
  repeat first [apply appends_translate_pivot | appends_step].
Qed.

(** With English selected the translation service is never called, the
    caption is stored as the captioner gave it, and the translated story is
    the English story. *)
Theorem english_run_skips_translator (env : backends) (bytes_data : string)
    (sel : selections) (w : world) :
  Forall (fun ev => is_translator_call ev = false)
    (events_of (run env English bytes_data sel) w)
  /\ forall scenario,
       scenario_of env (Some bytes_data) = Some scenario ->
       session_state (snd (run env English bytes_data sel w)) !! "caption"
       = Some (PyStr scenario)
       /\ forall story,
            story_of env (prompt_for scenario sel) = Some story ->
            session_state (snd (run env English bytes_data sel w)) !! "story_english"
            = Some (PyStr story)
            /\ session_state (snd (run env English bytes_data sel w)) !! "story_translated"
               = Some (PyStr story).
Proof.
  split.
  - destruct (pipeline_pivot_appends env (get_user_preferences sel) (staged bytes_data w))
      as (evs & Htrace & Hevs).
    pose proof (pipeline_returns env "en" sel (staged bytes_data w)) as Hok.
    destruct (pipeline env "en" (get_user_preferences sel) (staged bytes_data w))
      as [r w'] eqn:Hp.
    cbn [fst snd] in Hok, Htrace. subst r.
    destruct (run_events_after env English bytes_data sel w w' evs Hp Htrace)
      as (shown & -> & Hshown).
    apply Forall_cons. split; [done|]. apply Forall_app. split; [done|].
    eapply Forall_impl; [exact Hshown|]. by intros [].
  - rewrite run_session. change (SUPPORTED_LANGUAGES English) with "en".
    destruct (pipeline_cases env "en" sel (staged bytes_data w))
      as [evs [[Hc ->] | [(sc & Hc & Hs & ->) | [(sc & st & e & Hc & Hs & Ha & ->)
                                                | (sc & st & a & Hc & Hs & Ha & ->)]]]];
      rewrite staged_image in Hc; unfold log, store, staged;
      cbn [snd session_state files];
      change (translated env ?text "en") with text.
    all: intros scenario Hc'; simplify_eq.
    all: split; [by simplify_map_eq|].
    all: intros story Hs'; simplify_eq.
    all: split; by simplify_map_eq.
Qed.

Lemma english_run_skips_translator_witness :
  session_state (snd (run sample_env English "IMG1" sample_sel fresh)) !! "story_translated"
  = Some (PyStr "Once upon a time, a dog found the sea.").
Proof.
  destruct (english_run_skips_translator sample_env "IMG1" sample_sel fresh)
    as [_ Hcaption].
  destruct (Hcaption "a picture of IMG1") as [_ Hstory]; [reflexivity|].
  destruct (Hstory "Once upon a time, a dog found the sea.") as [_ Htranslated];
    [reflexivity|].
  exact Htranslated.
Defined.

(** ** The plot selection *)

Lemma pipeline_prompt_ext (env : backends) (lang : string)
    (prefs prefs' : gmap string string) :
  (forall scenario w, build_prompt scenario prefs w = build_prompt scenario prefs' w) ->
  forall w, pipeline env lang prefs w = pipeline env lang prefs' w.
Proof.
  intros Hprompt w. unfold pipeline. rewrite !bind_unfold.
  destruct (img2txt env uploaded_image_path w) as [[[scenario|]|e] w1]; try done.
  destruct (truthy (PyStr scenario)); [|done].
  rewrite !bind_unfold.
  destruct (translate_text env scenario lang w1) as [[caption|e] w2]; [|done].
  rewrite !bind_unfold.
  destruct (session_set "caption" (PyStr caption) w2) as [[[]|e] w3]; [|done].
  rewrite !bind_unfold. by rewrite Hprompt.
Qed.

(** The plot selection has no effect at all: an execution with another
    plot does exactly the same to the session, the disk and the screen,
    and sends the same requests. *)
Theorem plot_is_ignored (env : backends) (ui : widgets) (p : string) (w : world) :
  main env (Widgets (selected_language ui) (uploaded_file ui) (with_plot p (chosen ui))
              (weave_button ui) (image_display ui)) w
  = main env ui w.
Proof.
  rewrite !main_eq.
  change (stopped (Widgets _ (uploaded_file ui) _ _ (image_display ui))) with (stopped ui).
  assert (before_display env
            (Widgets (selected_language ui) (uploaded_file ui) (with_plot p (chosen ui))
               (weave_button ui) (image_display ui)) w
          = before_display env ui w) as ->; [|done].
  unfold before_display.
  cbn [uploaded_file weave_button selected_language chosen image_display].
  destruct (uploaded_file ui) as [bytes_data|]; [|done].
  destruct (image_display ui); [|done].
  destruct (weave_button ui); [|done].
  apply (f_equal snd). apply pipeline_prompt_ext. intros scenario w0.
  by rewrite !build_prompt_eq.
Qed.

(** ** Coherence of the session *)

Ltac insert_lookup :=
  repeat first [rewrite lookup_insert_eq | rewrite lookup_insert_ne by done].

Lemma coherent_ext (w w' : world) :
  session_state w' !! "caption" = session_state w !! "caption" ->
  session_state w' !! "audio_file_path" = session_state w !! "audio_file_path" ->
  session_state w' !! "processing_complete" = session_state w !! "processing_complete" ->
  session_state w' !! "story_english" = session_state w !! "story_english" ->
  session_state w' !! "story_translated" = session_state w !! "story_translated" ->
  (is_Some (files w !! story_audio_path) -> is_Some (files w' !! story_audio_path)) ->
  coherent w -> coherent w'.
Proof.
  intros Hcap Hpath Hpc Hse Hst Hfile (Hc & Ha & Hp). unfold coherent.
  rewrite Hcap, Hpath, Hpc, Hse, Hst. split; [done|]. split; [|done].
  destruct Ha as [Ha | (Ha & Hpc' & Hf)]; [by left|]. right. auto.
Qed.

Lemma coherent_staged (bytes_data : string) (w : world) :
  coherent w -> coherent (staged bytes_data w).
Proof.
  intros Hco. pose proof Hco as (Hc & Ha & Hp).
  apply (coherent_ext w); [..|done]; unfold staged; cbn [session_state files].
  - destruct Hc as [Hc | [c Hc]]; rewrite Hc; by apply initialized_keeps.
  - destruct Ha as [Ha | (Ha & _)]; rewrite Ha; by apply initialized_keeps.
  - destruct Hp as [(Hp & _) | (Hp & _)]; rewrite Hp; by apply initialized_keeps.
  - destruct Hp as [(_ & Hp & _) | (_ & [s Hp] & _)]; [|destruct Hp as [Hp _]];
      rewrite Hp; by apply initialized_keeps.
  - destruct Hp as [(_ & _ & Hp) | (_ & _ & [s Hp] & _)];
      rewrite Hp; by apply initialized_keeps.
  - by rewrite lookup_insert_ne.
Qed.

Lemma coherent_pipeline (env : backends) (lang : string) (sel : selections) (w : world) :
  coherent w -> coherent (snd (pipeline env lang (get_user_preferences sel) w)).
Proof.
  intros Hco.
  destruct (pipeline_cases env lang sel w)
    as [evs [[Hc ->] | [(sc & Hc & Hs & ->) | [(sc & st & e & Hc & Hs & Ha & ->)
                                              | (sc & st & a & Hc & Hs & Ha & ->)]]]];
    cbn [snd].
  - by apply (coherent_ext w).
  - destruct Hco as (Hcap & Hpath & Hp). unfold coherent, log, store.
    cbn [session_state files]. insert_lookup.
    split; [by eauto|]. split; [done|].
    destruct Hp as [Hp | (Hpc & Hse & Hst & _)]; [by left|]. right. eauto.
  - destruct Hco as (Hcap & Hpath & Hp). apply story_of_Some in Hs as [_ Hs].
    unfold coherent, log, store. cbn [session_state files]. insert_lookup.
    split; [by eauto|]. split; [|right; by eauto 10].
    destruct Hpath as [Hpath | (Hpath & _ & Hf)]; [by left|].
    right. split; [done|]. split; [done|]. unfold left_by_failed_save.
    destruct (gtts_partial _ _ _); [by rewrite lookup_insert_eq | done].
  - apply story_of_Some in Hs as [_ Hs].
    unfold coherent. cbn [session_state files]. insert_lookup.
    split; [by eauto|]. split; [|right; by eauto 10].
    right. split; [done|]. split; [done|]. by eexists.
Qed.

Lemma coherent_main (env : backends) (ui : widgets) (w : world) :
  coherent w -> coherent (snd (main env ui w)).
Proof.
  intros Hco.
  apply (coherent_ext (before_display env ui w));
    rewrite ?main_session, ?main_files; try done.
  unfold before_display. destruct (uploaded_file ui) as [bytes_data|].
  - destruct (image_display ui).
    + destruct (weave_button ui); [|by apply coherent_staged].
      by apply coherent_pipeline, coherent_staged.
    + by apply (coherent_ext (staged bytes_data w)); [..|apply coherent_staged].
  - pose proof (coherent_staged EmptyString w Hco) as Hstaged.
    by apply (coherent_ext (staged EmptyString w));
      unfold staged; cbn [session_state files];
      rewrite ?lookup_insert_ne by done.
Qed.

(** In every reachable state the five session fields agree with each
    other: [processing_complete] is a boolean, true exactly when a
    non-empty English story is stored -- then with a translated story and a
    caption --, and an audio path is only stored with
    [processing_complete] true and the audio file on disk. *)
Theorem reachable_coherent (w : world) : reachable w -> coherent w.
Proof.
  induction 1 as [fs tr | env ui w _ IH]; [|by apply coherent_main].
  rewrite initialize_session_state_eq. unfold coherent. cbn [snd session_state files].
  split; [by left|]. split; [by left|]. by left.
Qed.

Lemma reachable_coherent_witness : coherent after_failed_speech.
Proof.
  apply reachable_coherent. unfold after_failed_speech, after_first_run, run.
  rewrite <- (main_initialized sample_env _ fresh).
  apply reachable_main, reachable_main. apply (reachable_start ∅ []).
Defined.

(** ** Translation inside a run *)

Lemma translated_raise (env : backends) (text lang e : string) :
  lang <> "en" -> translator_translate env text lang = Raise e ->
  translated env text lang = text.
Proof.
  intros Hlang Hraise. unfold translated. rewrite Hraise.
  by apply String.eqb_neq in Hlang as ->.
Qed.

Lemma translation_events_raise (env : backends) (text lang e : string) :
  lang <> "en" -> translator_translate env text lang = Raise e ->
  translation_events env text lang
  = [call_translator text lang;
     st_warning ("Translation failed: " ++ e ++ ". Showing original text.")].
Proof.
  intros Hlang Hraise. unfold translation_events, events_of.
  rewrite translate_text_eq, Hraise. by apply String.eqb_neq in Hlang as ->.
Qed.

Lemma language_code_pivot (lang : language) :
  SUPPORTED_LANGUAGES lang = "en" <-> lang = English.
Proof. split; [by destruct lang | by intros ->]. Qed.

(** A translation service that fails does not stop a run: caption and
    story are stored untranslated, each failure is shown as a warning, and
    speech is synthesised from the English story under the selected
    language code, after which [processing_complete] is true. *)
Theorem translation_failure_does_not_block (env : backends) (lang : language)
    (bytes_data : string) (sel : selections) (scenario story audio e1 e2 : string)
    (w : world) :
  lang <> English ->
  scenario_of env (Some bytes_data) = Some scenario ->
  story_of env (prompt_for scenario sel) = Some story ->
  translator_translate env scenario (SUPPORTED_LANGUAGES lang) = Raise e1 ->
  translator_translate env story (SUPPORTED_LANGUAGES lang) = Raise e2 ->
  gtts_save env story (SUPPORTED_LANGUAGES lang) = Ok audio ->
  session_state (snd (run env lang bytes_data sel w))
  = <["processing_complete" := PyBool true]>
      (<["audio_file_path" := PyStr story_audio_path]>
         (<["story_translated" := PyStr story]>
            (<["story_english" := PyStr story]>
               (<["caption" := PyStr scenario]> (initialized (session_state w))))))
  /\ files (snd (run env lang bytes_data sel w)) !! story_audio_path = Some audio
  /\ exists shown,
       events_of (run env lang bytes_data sel) w
       = ([st_image bytes_data; call_captioner uploaded_image_path;
           call_translator scenario (SUPPORTED_LANGUAGES lang);
           st_warning ("Translation failed: " ++ e1 ++ ". Showing original text.");
           call_completions (story_prompt_prefix ++ prompt_for scenario sel);
           call_translator story (SUPPORTED_LANGUAGES lang);
           st_warning ("Translation failed: " ++ e2 ++ ". Showing original text.");
           call_gtts story (SUPPORTED_LANGUAGES lang)] ++ shown)%list
       /\ Forall is_rendering shown.
Proof.
  intros Hlang Hc Hs H1 H2 Ha.
  assert (Hcode : SUPPORTED_LANGUAGES lang <> "en") by by rewrite language_code_pivot.
  rewrite <- (staged_image bytes_data w) in Hc.
  rewrite <- (translated_raise env story _ e2 Hcode H2) in Ha.
  pose proof (pipeline_full_events env (SUPPORTED_LANGUAGES lang) sel (staged bytes_data w)
                scenario story audio Hc Hs Ha) as Hp.
  rewrite (translated_raise env story _ e2 Hcode H2) in Hp.
  rewrite (translated_raise env scenario _ e1 Hcode H1) in Hp.
  rewrite (translation_events_raise env story _ e2 Hcode H2) in Hp.
  rewrite (translation_events_raise env scenario _ e1 Hcode H1) in Hp.
  split; [by rewrite run_session, Hp|].
  split; [rewrite run_files, Hp; cbn [snd files]; by rewrite lookup_insert_eq|].
  destruct (run_events_after env lang bytes_data sel w _ _ Hp eq_refl)
    as (shown & -> & Hshown).
  exists shown. split; [|done]. reflexivity.
Qed.

Lemma translation_failure_does_not_block_witness :
  files (snd (run env_no_translation Hindi "IMG1" sample_sel fresh)) !! story_audio_path
  = Some "mp3 of Once upon a time, a dog found the sea.".
Proof.
  apply (translation_failure_does_not_block env_no_translation Hindi "IMG1" sample_sel
           "a picture of IMG1" "Once upon a time, a dog found the sea."
           "mp3 of Once upon a time, a dog found the sea." "timed out" "timed out" fresh).
  - discriminate.
  - reflexivity.
  - reflexivity.
  - reflexivity.
  - reflexivity.
  - reflexivity.
Defined.

Lemma translation_events_call (env : backends) (text lang : string) :
  lang <> "en" ->
  exists rest, translation_events env text lang = call_translator text lang :: rest.
Proof.
  intros Hlang. unfold translation_events, events_of. rewrite translate_text_eq.
  apply String.eqb_neq in Hlang as ->.
  destruct (translator_translate env text lang); eauto.
Qed.

Lemma pipeline_after_caption (env : backends) (lang : string) (prefs : gmap string string)
    (w : world) (scenario : string) :
  scenario_of env (files w !! uploaded_image_path) = Some scenario ->
  exists rest,
    trace (snd (pipeline env lang prefs w))
    = (trace w ++ call_captioner uploaded_image_path
               :: translation_events env scenario lang ++ rest)%list.
Proof.
  intros [Hc Ht]%scenario_of_Some. unfold pipeline.
  rewrite bind_unfold, img2txt_eq, Hc, Ht.
  rewrite bind_unfold, translate_text_run, log_log.
  match goal with
  | |- context [snd (?k ?w0)] =>
      assert (Hk : appends (fun _ => True) k);
      [| destruct (Hk w0) as (rest & -> & _); exists rest ]
  end.
  - unfold build_prompt, dict_getitem, txt2story, txt2story_body, translate_text,
      create_audio.
    repeat appends_step.
  - unfold log. cbn [trace]. by rewrite <- !app_assoc.
Qed.

(** For every language but English a run whose captioning succeeds sends
    the caption to the translation service under that language's code,
    which is never the pivot code. *)
Theorem non_english_run_calls_translator (env : backends) (lang : language)
    (bytes_data : string) (sel : selections) (scenario : string) (w : world) :
  lang <> English ->
  scenario_of env (Some bytes_data) = Some scenario ->
  SUPPORTED_LANGUAGES lang <> "en"
  /\ call_translator scenario (SUPPORTED_LANGUAGES lang)
     ∈ events_of (run env lang bytes_data sel) w.
Proof.
  intros Hlang Hc.
  assert (Hcode : SUPPORTED_LANGUAGES lang <> "en") by by rewrite language_code_pivot.
  split; [done|].
  rewrite <- (staged_image bytes_data w) in Hc.
  destruct (pipeline_after_caption env (SUPPORTED_LANGUAGES lang) (get_user_preferences sel)
              (staged bytes_data w) scenario Hc) as (rest & Htrace).
  destruct (translation_events_call env scenario _ Hcode) as (rest' & Hcall).
  destruct (run_trace env lang bytes_data sel w) as (shown & Hrun & _).
  unfold events_of. rewrite Hrun, Htrace, Hcall. unfold staged. cbn [trace].
  rewrite <- !app_assoc, drop_app_length. set_solver.
Qed.

Lemma non_english_run_calls_translator_witness :
  SUPPORTED_LANGUAGES Punjabi <> "en"
  /\ call_translator "a picture of IMG1" (SUPPORTED_LANGUAGES Punjabi)
     ∈ events_of (run env_no_story Punjabi "IMG1" sample_sel) fresh.
Proof.
  apply (non_english_run_calls_translator env_no_story Punjabi "IMG1" sample_sel
           "a picture of IMG1" fresh).
  - discriminate.
  - reflexivity.
Defined.

Lemma wrappers_never_raise_witness :
  exists r w',
    create_audio sample_env "Once upon a time." "hi" after_first_run = (Ok r, w')
    /\ files w' !! uploaded_image_path = files after_first_run !! uploaded_image_path.
Proof.
  destruct (wrappers_never_raise sample_env after_first_run) as (_ & _ & _ & Haudio).
  destruct (Haudio "Once upon a time." "hi") as (r & w' & Hrun & _ & Hfiles).
  exists r, w'. split; [exact Hrun|]. apply Hfiles. discriminate.
Defined.
